(** * The CSI attach controller: change filter, event handlers, dispatch
      iterations and start-up gate of [pkg/controller/controller.go], and the
      retry configuration of [cmd/csi-attacher/main.go]. *)

From stdpp Require Import base decidable option list strings gmap.
From Stdlib Require Import ZArith Lia.

Local Open Scope Z_scope.
Local Open Scope string_scope.

(** ** Data model *)

(** Modelled from the spec: the API types [storage.VolumeAttachment] and
    [v1.PersistentVolume] are declared in the Kubernetes API packages, not in
    this repository.  The records keep the fields the controller reads
    ([Name], [ResourceVersion], [Spec.Attacher],
    [Spec.Source.PersistentVolumeName], [Status.AttachError],
    [Status.DetachError]) together with the remaining fields of the object
    that the deep comparison walks over.  Go pointers are [option]s ([None]
    is [nil]); maps are [gmap]s and slices are lists, so that a nil and an
    empty map or slice are the same value, as the semantic comparison treats
    them; a timestamp is its instant. *)
Module metav1.

Definition Time : Type := Z.

Record ObjectMeta : Type := mkObjectMeta {
  Name : string;
  Namespace : string;
  UID : string;
  ResourceVersion : string;
  Generation : Z;
  CreationTimestamp : Time;
  DeletionTimestamp : option Time;
  Labels : gmap string string;
  Annotations : gmap string string;
  Finalizers : list string
}.

End metav1.

Module storage.

Record VolumeError : Type := mkVolumeError {
  ErrorTime : metav1.Time;
  Message : string
}.

Record VolumeAttachmentSource : Type := mkVolumeAttachmentSource {
  PersistentVolumeName : option string
}.

Record VolumeAttachmentSpec : Type := mkVolumeAttachmentSpec {
  Attacher : string;
  Source : VolumeAttachmentSource;
  NodeName : string
}.

Record VolumeAttachmentStatus : Type := mkVolumeAttachmentStatus {
  Attached : bool;
  AttachmentMetadata : gmap string string;
  AttachError : option VolumeError;
  DetachError : option VolumeError
}.

Record VolumeAttachment : Type := mkVolumeAttachment {
  ObjectMeta : metav1.ObjectMeta;
  Spec : VolumeAttachmentSpec;
  Status : VolumeAttachmentStatus
}.

End storage.

Module v1.

Record PersistentVolume : Type := mkPersistentVolume {
  ObjectMeta : metav1.ObjectMeta;
  Phase : string
}.

End v1.

(** ** Semantic deep equality

    [equality.Semantic.DeepEqual] walks two values field by field: scalars
    and strings by [==], pointers by nil-ness and then by pointee, maps and
    slices by content. *)
Module equality.

Definition ptrDeepEqual {A : Type} (eq : A -> A -> bool)
    (a b : option A) : bool :=
  match a, b with
  | None, None => true
  | Some x, Some y => eq x y
  | _, _ => false
  end.

Definition ObjectMetaDeepEqual (a b : metav1.ObjectMeta) : bool :=
  bool_decide (metav1.Name a = metav1.Name b)
  && bool_decide (metav1.Namespace a = metav1.Namespace b)
  && bool_decide (metav1.UID a = metav1.UID b)
  && bool_decide (metav1.ResourceVersion a = metav1.ResourceVersion b)
  && bool_decide (metav1.Generation a = metav1.Generation b)
  && bool_decide (metav1.CreationTimestamp a = metav1.CreationTimestamp b)
  && ptrDeepEqual (fun x y => bool_decide (x = y))
       (metav1.DeletionTimestamp a) (metav1.DeletionTimestamp b)
  && bool_decide (metav1.Labels a = metav1.Labels b)
  && bool_decide (metav1.Annotations a = metav1.Annotations b)
  && bool_decide (metav1.Finalizers a = metav1.Finalizers b).

Definition VolumeErrorDeepEqual (a b : storage.VolumeError) : bool :=
  bool_decide (storage.ErrorTime a = storage.ErrorTime b)
  && bool_decide (storage.Message a = storage.Message b).

Definition SpecDeepEqual (a b : storage.VolumeAttachmentSpec) : bool :=
  bool_decide (storage.Attacher a = storage.Attacher b)
  && ptrDeepEqual (fun x y => bool_decide (x = y))
       (storage.PersistentVolumeName (storage.Source a))
       (storage.PersistentVolumeName (storage.Source b))
  && bool_decide (storage.NodeName a = storage.NodeName b).

Definition StatusDeepEqual (a b : storage.VolumeAttachmentStatus) : bool :=
  bool_decide (storage.Attached a = storage.Attached b)
  && bool_decide (storage.AttachmentMetadata a = storage.AttachmentMetadata b)
  && ptrDeepEqual VolumeErrorDeepEqual
       (storage.AttachError a) (storage.AttachError b)
  && ptrDeepEqual VolumeErrorDeepEqual
       (storage.DetachError a) (storage.DetachError b).

Definition DeepEqual (a b : storage.VolumeAttachment) : bool :=
  ObjectMetaDeepEqual (storage.ObjectMeta a) (storage.ObjectMeta b)
  && SpecDeepEqual (storage.Spec a) (storage.Spec b)
  && StatusDeepEqual (storage.Status a) (storage.Status b).

End equality.

(** ** The change filter *)

(** [isNil p] is Go's [p == nil] on a pointer. *)
Definition isNil {A : Type} (p : option A) : bool :=
  match p with None => true | Some _ => false end.

(** [va.DeepCopy()]: a fresh object with the same content.  Records are
    values here, so the copy is the record itself. *)
Definition DeepCopy (va : storage.VolumeAttachment) : storage.VolumeAttachment :=
  va.

(** [va.ResourceVersion = rv] *)
Definition setResourceVersion (rv : string) (va : storage.VolumeAttachment)
    : storage.VolumeAttachment :=
  let m := storage.ObjectMeta va in
  storage.mkVolumeAttachment
    (metav1.mkObjectMeta (metav1.Name m) (metav1.Namespace m) (metav1.UID m)
       rv (metav1.Generation m) (metav1.CreationTimestamp m)
       (metav1.DeletionTimestamp m) (metav1.Labels m) (metav1.Annotations m)
       (metav1.Finalizers m))
    (storage.Spec va) (storage.Status va).

(** [va.Status.AttachError = e] *)
Definition setAttachError (e : option storage.VolumeError)
    (va : storage.VolumeAttachment) : storage.VolumeAttachment :=
  let s := storage.Status va in
  storage.mkVolumeAttachment (storage.ObjectMeta va) (storage.Spec va)
    (storage.mkVolumeAttachmentStatus (storage.Attached s)
       (storage.AttachmentMetadata s) e (storage.DetachError s)).

(** [va.Status.DetachError = e] *)
Definition setDetachError (e : option storage.VolumeError)
    (va : storage.VolumeAttachment) : storage.VolumeAttachment :=
  let s := storage.Status va in
  storage.mkVolumeAttachment (storage.ObjectMeta va) (storage.Spec va)
    (storage.mkVolumeAttachmentStatus (storage.Attached s)
       (storage.AttachmentMetadata s) (storage.AttachError s) e).

Definition vaResourceVersion (va : storage.VolumeAttachment) : string :=
  metav1.ResourceVersion (storage.ObjectMeta va).

Definition vaName (va : storage.VolumeAttachment) : string :=
  metav1.Name (storage.ObjectMeta va).

Definition vaAttachError (va : storage.VolumeAttachment) :=
  storage.AttachError (storage.Status va).

Definition vaDetachError (va : storage.VolumeAttachment) :=
  storage.DetachError (storage.Status va).

(** [shouldEnqueueVAChange(old, new)] of controller.go; [true] is
    "enqueue". *)
Definition shouldEnqueueVAChange (old new : storage.VolumeAttachment) : bool :=
  if bool_decide (vaResourceVersion old = vaResourceVersion new) then
    true
  else if isNil (vaAttachError new) && isNil (vaDetachError new)
          && isNil (vaAttachError old) && isNil (vaDetachError old) then
    true
  else
    let sanitized := DeepCopy new in
    let sanitized := setResourceVersion (vaResourceVersion old) sanitized in
    let sanitized := setAttachError (vaAttachError old) sanitized in
    let sanitized := setDetachError (vaDetachError old) sanitized in
    if equality.DeepEqual old sanitized then false else true.

(** ** Calls on the collaborators

    The controller's own code is sequential glue between objects it does not
    implement: the two work queues, the two listers of the object cache, the
    [Handler], the cache-sync wait, the goroutine scheduler and the stop
    channel.  Every call on one of them is a [Call]; what the collaborator
    answers is a [Resp].  Log lines ([klog]) have no effect on the control
    flow and are left out. *)

Inductive QueueId : Type := vaQueue | pvQueue.

(** A queue item is an [interface{}]; the controller only ever adds
    strings. *)
Inductive Item : Type :=
| ItemString (s : string)
| ItemOther (tag : nat).

(** Errors of a lister [Get], as far as [apierrs.IsNotFound] tells them
    apart. *)
Inductive Error : Type :=
| ErrNotFound (name : string)
| ErrOther (msg : string).

Module apierrs.
Definition IsNotFound (err : Error) : bool :=
  match err with ErrNotFound _ => true | ErrOther _ => false end.
End apierrs.

(** The two functions [Run] hands to [wait.Until]. *)
Inductive Worker : Type := syncVAWorker | syncPVWorker.

(** How a call into the [Handler] ends. *)
Inductive HandlerOutcome : Type := HandlerReturns | HandlerPanics.

Inductive Call : Type :=
| QueueAdd (q : QueueId) (item : Item)
| QueueAddRateLimited (q : QueueId) (item : Item)
| QueueGet (q : QueueId)
| QueueDone (q : QueueId) (item : Item)
| QueueShutDown (q : QueueId)
| VaListerGet (name : string)
| PvListerGet (name : string)
| SyncNewOrUpdatedVolumeAttachment (va : storage.VolumeAttachment)
| SyncNewOrUpdatedPersistentVolume (pv : v1.PersistentVolume)
| WaitForCacheSync
| GoUntil (w : Worker)
| RecvStopCh.

(** A lister answers with an object or with an error, never both. *)
Definition Resp (c : Call) : Type :=
  match c with
  | QueueGet _ => (Item * bool)%type
  | VaListerGet _ => (storage.VolumeAttachment + Error)%type
  | PvListerGet _ => (v1.PersistentVolume + Error)%type
  | SyncNewOrUpdatedVolumeAttachment _ => HandlerOutcome
  | SyncNewOrUpdatedPersistentVolume _ => HandlerOutcome
  | WaitForCacheSync => bool
  | _ => unit
  end.

(** A Go function body: it returns, panics, or calls a collaborator and goes
    on with the answer. *)
Inductive Prog (R : Type) : Type :=
| Ret (r : R)
| Panic
| Vis (c : Call) (k : Resp c -> Prog R).

Arguments Ret {R} r.
Arguments Panic {R}.
Arguments Vis {R} c k.

Fixpoint bind {A B : Type} (p : Prog A) (f : A -> Prog B) : Prog B :=
  match p with
  | Ret a => f a
  | Panic => Panic
  | Vis c k => Vis c (fun x => bind (k x) f)
  end.

#[global] Instance Prog_ret : MRet Prog := @Ret.
#[global] Instance Prog_bind : MBind Prog := fun A B f p => bind p f.

Definition call (c : Call) : Prog (Resp c) := Vis c Ret.

(** A call made for its effect alone. *)
Definition invoke (c : Call) : Prog unit := Vis c (fun _ => Ret tt).

(** [defer d; body]: [d] runs when the function is left, by a return or by a
    panic, and the panic goes on after it. *)
Fixpoint defer {R : Type} (d : Prog unit) (body : Prog R) : Prog R :=
  match body with
  | Ret r => _ ← d; Ret r
  | Panic => _ ← d; Panic
  | Vis c k => Vis c (fun x => defer d (k x))
  end.

(** How a function body ends. *)
Inductive Outcome (R : Type) : Type :=
| Returned (r : R)
| Panicked.

Arguments Returned {R} r.
Arguments Panicked {R}.

(** The collaborators taken together: the answer to a call may depend on
    every call made before it. *)
Definition Env : Type := list Call -> forall c : Call, Resp c.

(** [run env hist p]: the calls [p] makes, in order, after the calls [hist]
    already made, and how [p] ends. *)
Fixpoint run {R : Type} (env : Env) (hist : list Call) (p : Prog R)
    : list Call * Outcome R :=
  match p with
  | Ret r => ([], Returned r)
  | Panic => ([], Panicked)
  | Vis c k =>
      let '(t, o) := run env (hist ++ [c]) (k (env hist c)) in (c :: t, o)
  end.

Definition trace {R : Type} (env : Env) (hist : list Call) (p : Prog R)
    : list Call :=
  fst (run env hist p).

Definition outcome {R : Type} (env : Env) (hist : list Call) (p : Prog R)
    : Outcome R :=
  snd (run env hist p).

(** ** Notification payloads *)

(** The [interface{}] an informer hands to a callback: a (possibly nil)
    pointer to one of the two kinds, or something else, like the tombstone
    of a missed delete. *)
Inductive Object : Type :=
| ObjVolumeAttachment (p : option storage.VolumeAttachment)
| ObjPersistentVolume (p : option v1.PersistentVolume)
| ObjOther.

(** The type assertion of [obj] to a pointer to [storage.VolumeAttachment]. *)
Definition assertVolumeAttachment (obj : Object)
    : Prog (option storage.VolumeAttachment) :=
  match obj with ObjVolumeAttachment p => Ret p | _ => Panic end.

(** The type assertion of [obj] to a pointer to [v1.PersistentVolume]. *)
Definition assertPersistentVolume (obj : Object)
    : Prog (option v1.PersistentVolume) :=
  match obj with ObjPersistentVolume p => Ret p | _ => Panic end.

(** [key.(string)] *)
Definition assertString (key : Item) : Prog string :=
  match key with ItemString s => Ret s | ItemOther _ => Panic end.

(** Reading a field through a pointer. *)
Definition deref {A : Type} (p : option A) : Prog A :=
  match p with Some x => Ret x | None => Panic end.

(** A call into the [Handler]; its panic is the caller's. *)
Definition callHandler (o : HandlerOutcome) : Prog unit :=
  match o with HandlerReturns => Ret tt | HandlerPanics => Panic end.

(** ** The controller *)

(** [Provisioner]: besides the attacher name its fields are handles on the
    collaborators, which are the [Call]s above. *)
Record Provisioner : Type := mkProvisioner {
  attacherName : string
}.

Definition pvName (pv : v1.PersistentVolume) : string :=
  metav1.Name (v1.ObjectMeta pv).

Definition vaAdded (ctrl : Provisioner) (obj : Object) : Prog unit :=
  va ← assertVolumeAttachment obj;
  va ← deref va;
  invoke (QueueAdd vaQueue (ItemString (vaName va))).

Definition vaUpdated (ctrl : Provisioner) (old new : Object) : Prog unit :=
  oldVA ← assertVolumeAttachment old;
  newVA ← assertVolumeAttachment new;
  oldVA ← deref oldVA;
  newVA ← deref newVA;
  if shouldEnqueueVAChange oldVA newVA then
    invoke (QueueAdd vaQueue (ItemString (vaName newVA)))
  else
    Ret tt.

Definition vaDeleted (ctrl : Provisioner) (obj : Object) : Prog unit :=
  va ← assertVolumeAttachment obj;
  match va with
  | Some va =>
      match storage.PersistentVolumeName (storage.Source (storage.Spec va)) with
      | Some name => invoke (QueueAdd pvQueue (ItemString name))
      | None => Ret tt
      end
  | None => Ret tt
  end.

Definition pvAdded (ctrl : Provisioner) (obj : Object) : Prog unit :=
  pv ← assertPersistentVolume obj;
  pv ← deref pv;
  invoke (QueueAdd pvQueue (ItemString (pvName pv))).

Definition pvUpdated (ctrl : Provisioner) (old new : Object) : Prog unit :=
  pv ← assertPersistentVolume new;
  pv ← deref pv;
  invoke (QueueAdd pvQueue (ItemString (pvName pv))).

Definition syncVA (ctrl : Provisioner) : Prog unit :=
  '(key, quit) ← call (QueueGet vaQueue);
  if (quit : bool) then Ret tt
  else
    defer (invoke (QueueDone vaQueue key))
      (vaName ← assertString key;
       r ← call (VaListerGet vaName);
       match r with
       | inr err =>
           if apierrs.IsNotFound err then Ret tt
           else invoke (QueueAddRateLimited vaQueue (ItemString vaName))
       | inl va =>
           if negb (bool_decide
                      (storage.Attacher (storage.Spec va) = attacherName ctrl))
           then Ret tt
           else
             o ← call (SyncNewOrUpdatedVolumeAttachment va);
             callHandler o
       end).

Definition syncPV (ctrl : Provisioner) : Prog unit :=
  '(key, quit) ← call (QueueGet pvQueue);
  if (quit : bool) then Ret tt
  else
    defer (invoke (QueueDone pvQueue key))
      (pvName ← assertString key;
       r ← call (PvListerGet pvName);
       match r with
       | inr err =>
           if apierrs.IsNotFound err then Ret tt
           else invoke (QueueAddRateLimited pvQueue (ItemString pvName))
       | inl pv =>
           o ← call (SyncNewOrUpdatedPersistentVolume pv);
           callHandler o
       end).

(** The body of the [for] loop of [Run], [n] times. *)
Fixpoint startWorkers (n : nat) : Prog unit :=
  match n with
  | O => Ret tt
  | S n' =>
      _ ← invoke (GoUntil syncVAWorker);
      _ ← invoke (GoUntil syncPVWorker);
      startWorkers n'
  end.

(** [Run(workers, stopCh)]; [workers] is a Go [int], and the loop
    [for i := 0; i < workers; i++] runs [max 0 workers] times. *)
Definition Run (ctrl : Provisioner) (workers : Z) : Prog unit :=
  defer (invoke (QueueShutDown vaQueue))
    (defer (invoke (QueueShutDown pvQueue))
       (synced ← call WaitForCacheSync;
        if negb synced then Ret tt
        else
          _ ← startWorkers (Z.to_nat workers);
          invoke RecvStopCh)).

(** What a goroutine started by [Run] runs, over and over. *)
Definition workerBody (ctrl : Provisioner) (w : Worker) : Prog unit :=
  match w with
  | syncVAWorker => syncVA ctrl
  | syncPVWorker => syncPV ctrl
  end.

(** ** Registration with the informers *)

Module cache.

(** client-go's [ResourceEventHandlerFuncs]: an adaptor whose three
    callbacks are optional; a notification for which the field is nil is
    dropped. *)
Record ResourceEventHandlerFuncs : Type := mkResourceEventHandlerFuncs {
  AddFunc : option (Object -> Prog unit);
  UpdateFunc : option (Object -> Object -> Prog unit);
  DeleteFunc : option (Object -> Prog unit)
}.

Definition OnAdd (r : ResourceEventHandlerFuncs) (obj : Object) : Prog unit :=
  match AddFunc r with Some f => f obj | None => Ret tt end.

Definition OnUpdate (r : ResourceEventHandlerFuncs) (old new : Object)
    : Prog unit :=
  match UpdateFunc r with Some f => f old new | None => Ret tt end.

Definition OnDelete (r : ResourceEventHandlerFuncs) (obj : Object)
    : Prog unit :=
  match DeleteFunc r with Some f => f obj | None => Ret tt end.

End cache.

(** What [NewCSIAttachController] builds: the controller and the handlers it
    adds to the VolumeAttachment informer and to the PersistentVolume
    informer.  The event broadcaster, the creation of the two queues and
    [handler.Init] play no part in how a notification is handled and are not
    represented. *)
Record Registration : Type := mkRegistration {
  controller : Provisioner;
  vaInformerHandlers : cache.ResourceEventHandlerFuncs;
  pvInformerHandlers : cache.ResourceEventHandlerFuncs
}.

Definition NewCSIAttachController (attacherName : string) : Registration :=
  let ctrl := mkProvisioner attacherName in
  mkRegistration ctrl
    (cache.mkResourceEventHandlerFuncs
       (Some (vaAdded ctrl)) (Some (vaUpdated ctrl)) (Some (vaDeleted ctrl)))
    (cache.mkResourceEventHandlerFuncs
       (Some (pvAdded ctrl)) (Some (pvUpdated ctrl)) None).

(** ** The rate-limited work queue *)

Module workqueue.

(** Modelled from the spec: the queue and its rate limiter come from
    client-go's [workqueue] package, which is not part of the sources.  The
    limiter keeps a failure counter per key; the delay starts at the
    configured minimum, doubles per consecutive failure and is capped at
    the configured maximum; [Forget] resets the counter of its key.
    Durations are nanoseconds, as [time.Duration]. *)
Record ItemExponentialFailureRateLimiter : Type := mkLimiter {
  failures : gmap string nat;
  baseDelay : Z;
  maxDelay : Z
}.

Definition NewItemExponentialFailureRateLimiter (baseDelay maxDelay : Z)
    : ItemExponentialFailureRateLimiter :=
  mkLimiter ∅ baseDelay maxDelay.

Definition NumRequeues (r : ItemExponentialFailureRateLimiter)
    (item : string) : nat :=
  default 0%nat (failures r !! item).

Definition When (r : ItemExponentialFailureRateLimiter) (item : string)
    : Z * ItemExponentialFailureRateLimiter :=
  let exp := NumRequeues r item in
  (Z.min (baseDelay r * 2 ^ Z.of_nat exp) (maxDelay r),
   mkLimiter (<[item := S exp]> (failures r)) (baseDelay r) (maxDelay r)).

Definition Forget (r : ItemExponentialFailureRateLimiter) (item : string)
    : ItemExponentialFailureRateLimiter :=
  mkLimiter (delete item (failures r)) (baseDelay r) (maxDelay r).

(** Modelled from the spec: of the queue, the part [AddRateLimited] and
    [Forget] act on, that is the limiter and the keys waiting for their
    delay to elapse, each with the delay it was given. *)
Record RateLimitingQueue : Type := mkQueue {
  name : string;
  rateLimiter : ItemExponentialFailureRateLimiter;
  waiting : list (string * Z)
}.

Definition NewNamedRateLimitingQueue
    (rateLimiter : ItemExponentialFailureRateLimiter) (name : string)
    : RateLimitingQueue :=
  mkQueue name rateLimiter [].

Definition AddRateLimited (q : RateLimitingQueue) (item : string)
    : RateLimitingQueue :=
  let '(delay, r) := When (rateLimiter q) item in
  mkQueue (name q) r (waiting q ++ [(item, delay)]).

Definition QueueForget (q : RateLimitingQueue) (item : string)
    : RateLimitingQueue :=
  mkQueue (name q) (Forget (rateLimiter q) item) (waiting q).

(** A retry-related call on a queue, and a sequence of them. *)
Inductive Op : Type :=
| OpAddRateLimited (item : string)
| OpForget (item : string).

Definition applyOp (q : RateLimitingQueue) (op : Op) : RateLimitingQueue :=
  match op with
  | OpAddRateLimited item => AddRateLimited q item
  | OpForget item => QueueForget q item
  end.

Definition applyOps (ops : list Op) (q : RateLimitingQueue)
    : RateLimitingQueue :=
  fold_left applyOp ops q.

(** The delay given by the most recent [AddRateLimited]. *)
Definition lastDelay (q : RateLimitingQueue) : option (string * Z) :=
  last (waiting q).

Definition isAddRateLimited (item : string) (op : Op) : bool :=
  match op with
  | OpAddRateLimited item' => bool_decide (item' = item)
  | OpForget _ => false
  end.

Definition isForget (item : string) (op : Op) : bool :=
  match op with
  | OpForget item' => bool_decide (item' = item)
  | OpAddRateLimited _ => false
  end.

(** How many times [AddRateLimited item] occurs in [ops]. *)
Definition calls (item : string) (ops : list Op) : nat :=
  length (List.filter (isAddRateLimited item) ops).

(** [ops] holds no [Forget item]. *)
Definition consecutive (item : string) (ops : list Op) : Prop :=
  Forall (fun op => isForget item op = false) ops.

End workqueue.

(** ** Command line defaults of main.go *)

Module main.

Definition Second : Z := 1000000000.
Definition Minute : Z := 60 * Second.

Record Flags : Type := mkFlags {
  resync : Z;
  timeout : Z;
  workerThreads : Z;
  retryIntervalStart : Z;
  retryIntervalMax : Z;
  enableLeaderElection : bool
}.

Definition defaultFlags : Flags :=
  mkFlags (10 * Minute) (15 * Second) 10 Second (5 * Minute) false.

Definition storageQ (flags : Flags) : workqueue.RateLimitingQueue :=
  workqueue.NewNamedRateLimitingQueue
    (workqueue.NewItemExponentialFailureRateLimiter
       (retryIntervalStart flags) (retryIntervalMax flags))
    "ddp-storage-q".

Definition pvcQ (flags : Flags) : workqueue.RateLimitingQueue :=
  workqueue.NewNamedRateLimitingQueue
    (workqueue.NewItemExponentialFailureRateLimiter
       (retryIntervalStart flags) (retryIntervalMax flags))
    "ddp-pvc-q".

End main.

(** ** The change filter as the specification words it *)

#[global] Instance ObjectMeta_eq_dec : EqDecision metav1.ObjectMeta.
Proof. solve_decision. Defined.
#[global] Instance VolumeError_eq_dec : EqDecision storage.VolumeError.
Proof. solve_decision. Defined.
#[global] Instance VolumeAttachmentSource_eq_dec :
  EqDecision storage.VolumeAttachmentSource.
Proof. solve_decision. Defined.
#[global] Instance VolumeAttachmentSpec_eq_dec :
  EqDecision storage.VolumeAttachmentSpec.
Proof. solve_decision. Defined.
#[global] Instance VolumeAttachmentStatus_eq_dec :
  EqDecision storage.VolumeAttachmentStatus.
Proof. solve_decision. Defined.
#[global] Instance VolumeAttachment_eq_dec : EqDecision storage.VolumeAttachment.
Proof. solve_decision. Defined.

Inductive Verdict : Type := Enqueue | DoNotEnqueue.

Definition verdict (enqueue : bool) : Verdict :=
  if enqueue then Enqueue else DoNotEnqueue.

(** The record carries an attach-error or a detach-error status. *)
Definition carriesErrorStatus (va : storage.VolumeAttachment) : Prop :=
  vaAttachError va ≠ None ∨ vaDetachError va ≠ None.

#[global] Instance carriesErrorStatus_dec va : Decision (carriesErrorStatus va).
Proof. unfold carriesErrorStatus. apply _. Defined.

(** A copy of [new] whose resourceVersion, attach-error and detach-error are
    overwritten with the values of [old]. *)
Definition sanitizedCopy (old new : storage.VolumeAttachment)
    : storage.VolumeAttachment :=
  let m := storage.ObjectMeta new in
  let s := storage.Status new in
  storage.mkVolumeAttachment
    (metav1.mkObjectMeta (metav1.Name m) (metav1.Namespace m) (metav1.UID m)
       (vaResourceVersion old) (metav1.Generation m)
       (metav1.CreationTimestamp m) (metav1.DeletionTimestamp m)
       (metav1.Labels m) (metav1.Annotations m) (metav1.Finalizers m))
    (storage.Spec new)
    (storage.mkVolumeAttachmentStatus (storage.Attached s)
       (storage.AttachmentMetadata s) (vaAttachError old) (vaDetachError old)).

(** The three-step decision table of the Change Filter. *)
Definition ChangeFilterTable (old new : storage.VolumeAttachment) : Verdict :=
  if decide (vaResourceVersion old = vaResourceVersion new) then Enqueue
  else if decide (¬ carriesErrorStatus old ∧ ¬ carriesErrorStatus new) then
    Enqueue
  else if decide (sanitizedCopy old new = old) then DoNotEnqueue
  else Enqueue.

(** [old] and [new] agree on every field other than the resourceVersion and
    the two error fields of the status. *)
Definition identicalExceptVersionAndErrors
    (old new : storage.VolumeAttachment) : Prop :=
  let mo := storage.ObjectMeta old in
  let mn := storage.ObjectMeta new in
  metav1.Name mo = metav1.Name mn
  ∧ metav1.Namespace mo = metav1.Namespace mn
  ∧ metav1.UID mo = metav1.UID mn
  ∧ metav1.Generation mo = metav1.Generation mn
  ∧ metav1.CreationTimestamp mo = metav1.CreationTimestamp mn
  ∧ metav1.DeletionTimestamp mo = metav1.DeletionTimestamp mn
  ∧ metav1.Labels mo = metav1.Labels mn
  ∧ metav1.Annotations mo = metav1.Annotations mn
  ∧ metav1.Finalizers mo = metav1.Finalizers mn
  ∧ storage.Spec old = storage.Spec new
  ∧ storage.Attached (storage.Status old) = storage.Attached (storage.Status new)
  ∧ storage.AttachmentMetadata (storage.Status old)
    = storage.AttachmentMetadata (storage.Status new).

(** ** Sample objects and collaborators *)

Definition sampleMeta (name rv : string) : metav1.ObjectMeta :=
  metav1.mkObjectMeta name "" "uid-1" rv 1 1700000000 None
    {[ "app" := "db" ]} ∅ ["external-attacher/csi"].

Definition sampleError (msg : string) : storage.VolumeError :=
  storage.mkVolumeError 1700000100 msg.

(** A VolumeAttachment of attacher "csi-driver" on node "node-1". *)
Definition sampleVA (name rv : string) (target : option string)
    (attachError detachError : option storage.VolumeError)
    : storage.VolumeAttachment :=
  storage.mkVolumeAttachment (sampleMeta name rv)
    (storage.mkVolumeAttachmentSpec "csi-driver"
       (storage.mkVolumeAttachmentSource target) "node-1")
    (storage.mkVolumeAttachmentStatus false ∅ attachError detachError).

Definition samplePV (name : string) : v1.PersistentVolume :=
  v1.mkPersistentVolume (sampleMeta name "7") "Bound".

(** Collaborators that give the same answer to every call of a kind. *)
Definition constEnv (get : Item * bool)
    (va : storage.VolumeAttachment + Error)
    (pv : v1.PersistentVolume + Error)
    (h : HandlerOutcome) (synced : bool) : Env :=
  fun _ c =>
    match c return Resp c with
    | QueueGet _ => get
    | VaListerGet _ => va
    | PvListerGet _ => pv
    | SyncNewOrUpdatedVolumeAttachment _ => h
    | SyncNewOrUpdatedPersistentVolume _ => h
    | WaitForCacheSync => synced
    | QueueAdd _ _ | QueueAddRateLimited _ _ | QueueDone _ _
    | QueueShutDown _ | GoUntil _ | RecvStopCh => tt
    end.

(** ** Reading a trace *)

Definition isQueueDone (c : Call) : bool :=
  match c with QueueDone _ _ => true | _ => false end.

Definition isEnqueue (c : Call) : bool :=
  match c with
  | QueueAdd _ _ | QueueAddRateLimited _ _ => true
  | _ => false
  end.

Definition isHandlerSync (c : Call) : bool :=
  match c with
  | SyncNewOrUpdatedVolumeAttachment _
  | SyncNewOrUpdatedPersistentVolume _ => true
  | _ => false
  end.

Definition isDispatch (c : Call) : bool :=
  match c with QueueGet _ => true | _ => false end.

(** The goroutines a trace starts. *)
Fixpoint spawnedWorkers (t : list Call) : list Worker :=
  match t with
  | [] => []
  | GoUntil w :: t' => w :: spawnedWorkers t'
  | _ :: t' => spawnedWorkers t'
  end.

(** [wait.Until(f, 0, stopCh)] calls [f] again and again until the stop
    channel is closed; [n] is the number of rounds that fit in. *)
Fixpoint until (n : nat) (f : Prog unit) : Prog unit :=
  match n with
  | O => Ret tt
  | S n' => _ ← f; until n' f
  end.

(** Every call made in a run of the controller: those of [Run] itself and
    then those of each goroutine it started, every goroutine making [rounds]
    rounds.  The order between goroutines is not represented. *)
Definition systemTrace (env : Env) (hist : list Call) (ctrl : Provisioner)
    (workers : Z) (rounds : nat) : list Call :=
  let t := trace env hist (Run ctrl workers) in
  (t ++ flat_map
          (fun w => trace env (hist ++ t) (until rounds (workerBody ctrl w)))
          (spawnedWorkers t))%list.

(** ** Which calls a piece of code makes *)

#[global] Instance QueueId_eq_dec : EqDecision QueueId.
Proof. solve_decision. Defined.

(** [c] is the [Add] of a name on queue [q]. *)
Definition isAddOn (q : QueueId) (c : Call) : bool :=
  match c with
  | QueueAdd q' (ItemString _) => bool_decide (q' = q)
  | _ => false
  end.

(** [c] is a call on queue [q] proper to a dispatch iteration, on the lister
    of the kind of [q], or into the Handler for that kind. *)
Definition dispatchCallOf (q : QueueId) (c : Call) : bool :=
  match c with
  | QueueGet q' | QueueDone q' _ | QueueAddRateLimited q' _ =>
      bool_decide (q' = q)
  | VaListerGet _ | SyncNewOrUpdatedVolumeAttachment _ =>
      bool_decide (q = vaQueue)
  | PvListerGet _ | SyncNewOrUpdatedPersistentVolume _ =>
      bool_decide (q = pvQueue)
  | _ => false
  end.

(** The attachment records a trace hands to the Handler. *)
Fixpoint handledAttachments (t : list Call) : list storage.VolumeAttachment :=
  match t with
  | [] => []
  | SyncNewOrUpdatedVolumeAttachment va :: t' => va :: handledAttachments t'
  | _ :: t' => handledAttachments t'
  end.

(** The target records a trace hands to the Handler. *)
Fixpoint handledVolumes (t : list Call) : list v1.PersistentVolume :=
  match t with
  | [] => []
  | SyncNewOrUpdatedPersistentVolume pv :: t' => pv :: handledVolumes t'
  | _ :: t' => handledVolumes t'
  end.

Definition isShutDown (c : Call) : bool :=
  match c with QueueShutDown _ => true | _ => false end.

(** The payload is a non-nil pointer to a VolumeAttachment. *)
Definition isAttachment (obj : Object) : bool :=
  match obj with ObjVolumeAttachment (Some _) => true | _ => false end.

(** The payload is a pointer, nil or not, to a VolumeAttachment. *)
Definition isAttachmentPointer (obj : Object) : bool :=
  match obj with ObjVolumeAttachment _ => true | _ => false end.

(** The payload is a non-nil pointer to a PersistentVolume. *)
Definition isVolume (obj : Object) : bool :=
  match obj with ObjPersistentVolume (Some _) => true | _ => false end.

Definition returned {R : Type} (o : Outcome R) : bool :=
  match o with Returned _ => true | Panicked => false end.

(** The queue a goroutine of [Run] pops from. *)
Definition workerQueue (w : Worker) : QueueId :=
  match w with syncVAWorker => vaQueue | syncPVWorker => pvQueue end.

(** ** The command of main.go *)

Module csi_attacher.

Local Open Scope Z_scope.
Local Open Scope list_scope.

Definition controllerName : string := "ddp-storage-provisioner".

(** The parsed command line: the flags of [main.Flags] and the remaining
    ones. *)
Record CommandLine : Type := mkCommandLine {
  flags : main.Flags;
  kubeconfig : string;
  showVersion : bool;
  leaderElectionNamespace : string
}.

(** What [main] does, as far as other packages are concerned: the calls it
    makes on the client, informer, queue, controller and leader-election
    packages, in order.  Log lines are left out. *)
Inductive Step : Type :=
| PrintVersion
| BuildConfigFromFlags (kubeconfig : string)
| InClusterConfig
| NewClientset
| NewDDPClientset
| NewSharedInformerFactory (resync : Z)
| NewDDPSharedInformerFactory (resync : Z)
| NewQueue (q : workqueue.RateLimitingQueue)
| ControllerInit
| FactoryStart
| DDPFactoryStart
| ControllerRun (workers : Z)
| NewLeaderElection (lockName : string)
| WithNamespace (namespace : string)
| LeaderElectionRun.

(** How [main] ends: it returns, calls [os.Exit], or [klog.Fatalf]. *)
Inductive Exit : Type :=
| Return
| OsExit (code : Z)
| Fatalf.

(** The errors the fallible steps answer with, [None] for nil. *)
Record Errors : Type := mkErrors {
  configErr : option string;
  clientsetErr : option string;
  ddpClientsetErr : option string;
  initErr : option string;
  leaderElectionErr : option string
}.

(** [buildConfig(kubeconfig)] *)
Definition buildConfig (kubeconfig : string) : Step :=
  if negb (bool_decide (kubeconfig = "")) then BuildConfigFromFlags kubeconfig
  else InClusterConfig.

(** [int(u)] of a [uint] on a 64-bit platform. *)
Definition intOfUint (u : Z) : Z :=
  let m := u mod 2 ^ 64 in
  if m <? 2 ^ 63 then m else m - 2 ^ 64.

(** The closure [run] of [main]. *)
Definition run (cl : CommandLine) : list Step :=
  [FactoryStart; DDPFactoryStart;
   ControllerRun (intOfUint (main.workerThreads (flags cl)))].

(** [main()].  With leader election the closure [run] is handed to the
    election, which calls it when it sees fit; that call is not [main]'s. *)
Definition main (cl : CommandLine) (errs : Errors) : list Step * Exit :=
  if showVersion cl then ([PrintVersion], Return)
  else
    let config := [buildConfig (kubeconfig cl)] in
    match configErr errs with
    | Some _ => (config, OsExit 1)
    | None =>
        if main.workerThreads (flags cl) =? 0 then (config, OsExit 1)
        else
          match clientsetErr errs with
          | Some _ => (config ++ [NewClientset], OsExit 1)
          | None =>
              match ddpClientsetErr errs with
              | Some _ => (config ++ [NewClientset; NewDDPClientset], OsExit 1)
              | None =>
                  let setup :=
                    config
                    ++ [NewClientset; NewDDPClientset;
                        NewSharedInformerFactory (main.resync (flags cl));
                        NewDDPSharedInformerFactory (main.resync (flags cl));
                        NewQueue (main.storageQ (flags cl));
                        NewQueue (main.pvcQ (flags cl));
                        ControllerInit] in
                  match initErr errs with
                  | Some _ => (setup, OsExit 1)
                  | None =>
                      if negb (main.enableLeaderElection (flags cl)) then
                        (setup ++ run cl, Return)
                      else
                        let election :=
                          [NewLeaderElection (controllerName +:+ "-leader")]
                          ++ (if negb (bool_decide
                                         (leaderElectionNamespace cl = ""))
                              then [WithNamespace (leaderElectionNamespace cl)]
                              else [])
                          ++ [LeaderElectionRun] in
                        match leaderElectionErr errs with
                        | Some _ => (setup ++ election, Fatalf)
                        | None => (setup ++ election, Return)
                        end
                  end
              end
          end
    end.

(** The step starts the controller, directly or through the election. *)
Definition startsController (s : Step) : bool :=
  match s with
  | ControllerRun _ | LeaderElectionRun => true
  | _ => false
  end.

(** The step builds a client, a factory, a queue or the controller. *)
Definition buildsSomething (s : Step) : bool :=
  match s with
  | PrintVersion | BuildConfigFromFlags _ | InClusterConfig => false
  | _ => true
  end.

End csi_attacher.

(** * Properties *)

(** ** Deep equality decides equality of records *)

Section DeepEqual.

Import equality.

Lemma ptrDeepEqual_spec {A : Type} (eq : A -> A -> bool) :
  (forall x y, eq x y = true <-> x = y) ->
  forall a b, ptrDeepEqual eq a b = true <-> a = b.
Proof.
  intros Heq [x|] [y|]; simpl; try (split; congruence).
  rewrite Heq. split; congruence.
Qed.

Lemma leafDeepEqual_spec {A : Type} `{EqDecision A} (x y : A) :
  bool_decide (x = y) = true <-> x = y.
Proof. apply bool_decide_eq_true. Qed.

Lemma ObjectMetaDeepEqual_spec a b : ObjectMetaDeepEqual a b = true <-> a = b.
Proof.
  destruct a, b; unfold ObjectMetaDeepEqual; simpl.
  rewrite !andb_true_iff, !bool_decide_eq_true,
    (ptrDeepEqual_spec _ leafDeepEqual_spec).
  split; [intuition congruence | intros [= -> -> -> -> -> -> -> -> -> ->]; tauto].
Qed.

Lemma VolumeErrorDeepEqual_spec a b : VolumeErrorDeepEqual a b = true <-> a = b.
Proof.
  destruct a, b; unfold VolumeErrorDeepEqual; simpl.
  rewrite andb_true_iff, !bool_decide_eq_true.
  split; [intuition congruence | intros [= -> ->]; tauto].
Qed.

Lemma SpecDeepEqual_spec a b : SpecDeepEqual a b = true <-> a = b.
Proof.
  destruct a as [? [?] ?], b as [? [?] ?]; unfold SpecDeepEqual; simpl.
  rewrite !andb_true_iff, !bool_decide_eq_true,
    (ptrDeepEqual_spec _ leafDeepEqual_spec).
  split; [intuition congruence | intros [= -> -> ->]; tauto].
Qed.

Lemma StatusDeepEqual_spec a b : StatusDeepEqual a b = true <-> a = b.
Proof.
  destruct a, b; unfold StatusDeepEqual; simpl.
  rewrite !andb_true_iff, !bool_decide_eq_true,
    !(ptrDeepEqual_spec _ VolumeErrorDeepEqual_spec).
  split; [intuition congruence | intros [= -> -> -> ->]; tauto].
Qed.

Lemma DeepEqual_spec a b : DeepEqual a b = true <-> a = b.
Proof.
  destruct a, b; unfold DeepEqual; simpl.
  rewrite !andb_true_iff, ObjectMetaDeepEqual_spec, SpecDeepEqual_spec,
    StatusDeepEqual_spec.
  split; [intuition congruence | intros [= -> -> ->]; tauto].
Qed.

End DeepEqual.

(** ** The change filter *)

Lemma isNil_true {A : Type} (p : option A) : isNil p = true <-> p = None.
Proof. destruct p; simpl; split; congruence. Qed.

(** The object the code compares with [old] is the sanitized copy of the
    specification. *)
Lemma sanitized_is_sanitizedCopy old new :
  setDetachError (vaDetachError old)
    (setAttachError (vaAttachError old)
       (setResourceVersion (vaResourceVersion old) (DeepCopy new)))
  = sanitizedCopy old new.
Proof. reflexivity. Qed.

Lemma no_error_status_iff old new :
  isNil (vaAttachError new) && isNil (vaDetachError new)
  && isNil (vaAttachError old) && isNil (vaDetachError old) = true
  <-> ¬ carriesErrorStatus old ∧ ¬ carriesErrorStatus new.
Proof.
  unfold carriesErrorStatus.
  rewrite !andb_true_iff, !isNil_true.
  destruct (vaAttachError new), (vaDetachError new),
    (vaAttachError old), (vaDetachError old); split; intros H;
    try (exfalso; intuition congruence); intuition congruence.
Qed.

(** C1: for every pair of old and new records the source's filter gives the
    verdict of the three-step decision table: enqueue when the resource
    versions are equal; otherwise enqueue when none of the four error fields
    is set; otherwise do-not-enqueue exactly when the copy of new with old's
    resourceVersion, attach-error and detach-error equals old. *)
Theorem shouldEnqueueVAChange_decision_table :
  forall old new : storage.VolumeAttachment,
    verdict (shouldEnqueueVAChange old new) = ChangeFilterTable old new.
Proof.
  intros old new.
  unfold shouldEnqueueVAChange, ChangeFilterTable.
  rewrite sanitized_is_sanitizedCopy.
  case_bool_decide as Hrv.
  - rewrite decide_True by done. reflexivity.
  - rewrite decide_False by done.
    destruct (isNil (vaAttachError new) && isNil (vaDetachError new)
              && isNil (vaAttachError old) && isNil (vaDetachError old))
      eqn:Hnil.
    + apply no_error_status_iff in Hnil. rewrite decide_True by done.
      reflexivity.
    + rewrite decide_False.
      2:{ intros H. apply no_error_status_iff in H. congruence. }
      destruct (equality.DeepEqual old (sanitizedCopy old new)) eqn:Heq.
      * apply DeepEqual_spec in Heq. rewrite decide_True by done.
        reflexivity.
      * rewrite decide_False; [reflexivity|].
        intros H. symmetry in H. apply DeepEqual_spec in H. congruence.
Qed.

(** C2: when old and new have the same resource version the filter answers
    enqueue, whatever the other fields hold, error status included. *)
Theorem shouldEnqueueVAChange_same_resourceVersion :
  forall old new : storage.VolumeAttachment,
    vaResourceVersion old = vaResourceVersion new ->
    shouldEnqueueVAChange old new = true.
Proof.
  intros old new Hrv. unfold shouldEnqueueVAChange.
  rewrite bool_decide_eq_true_2 by exact Hrv. reflexivity.
Qed.

(** A resync that coincides with a difference in the error status alone: the
    later steps of the filter would say do-not-enqueue, the first step
    answers before them. *)
Lemma shouldEnqueueVAChange_same_resourceVersion_witness :
  vaResourceVersion
    (sampleVA "va-1" "41" (Some "pv-1") (Some (sampleError "timeout")) None)
  = vaResourceVersion (sampleVA "va-1" "41" (Some "pv-1") None None)
  ∧ equality.DeepEqual
      (sampleVA "va-1" "41" (Some "pv-1") (Some (sampleError "timeout")) None)
      (sanitizedCopy
         (sampleVA "va-1" "41" (Some "pv-1") (Some (sampleError "timeout")) None)
         (sampleVA "va-1" "41" (Some "pv-1") None None)) = true
  ∧ shouldEnqueueVAChange
      (sampleVA "va-1" "41" (Some "pv-1") (Some (sampleError "timeout")) None)
      (sampleVA "va-1" "41" (Some "pv-1") None None) = true.
Proof.
  split; [reflexivity|]. split; [vm_compute; reflexivity|].
  apply shouldEnqueueVAChange_same_resourceVersion. reflexivity.
Defined.

Lemma sanitizedCopy_of_identical old new :
  identicalExceptVersionAndErrors old new -> sanitizedCopy old new = old.
Proof.
  destruct old as [[] ? []], new as [[] ? []].
  unfold identicalExceptVersionAndErrors, sanitizedCopy, vaResourceVersion,
    vaAttachError, vaDetachError; simpl.
  intros (-> & -> & -> & -> & -> & -> & -> & -> & -> & -> & -> & ->).
  reflexivity.
Qed.

(** An update that changes the resource version and, of the rest, at most
    the two error fields is not enqueued once either record carries an
    error. *)
Lemma shouldEnqueueVAChange_status_only old new :
  vaResourceVersion old ≠ vaResourceVersion new ->
  carriesErrorStatus old ∨ carriesErrorStatus new ->
  identicalExceptVersionAndErrors old new ->
  shouldEnqueueVAChange old new = false.
Proof.
  intros Hrv Herr Hid. unfold shouldEnqueueVAChange.
  rewrite bool_decide_eq_false_2 by exact Hrv.
  destruct (isNil (vaAttachError new) && isNil (vaDetachError new)
            && isNil (vaAttachError old) && isNil (vaDetachError old))
    eqn:Hnil.
  - apply no_error_status_iff in Hnil. tauto.
  - rewrite sanitized_is_sanitizedCopy, (sanitizedCopy_of_identical _ _ Hid).
    rewrite (proj2 (DeepEqual_spec old old) eq_refl). reflexivity.
Qed.

(** The testable property of the specification: only [status.attachError]
    changed, together with the resource version. *)
Example attachError_set_not_enqueued :
  shouldEnqueueVAChange
    (sampleVA "va-1" "41" (Some "pv-1") None None)
    (sampleVA "va-1" "42" (Some "pv-1") (Some (sampleError "timeout")) None)
  = false.
Proof. vm_compute. reflexivity. Qed.

(** A change of the target reference next to the status write is
    enqueued. *)
Example target_changed_enqueued :
  shouldEnqueueVAChange
    (sampleVA "va-1" "41" (Some "pv-1") None None)
    (sampleVA "va-1" "42" (Some "pv-2") (Some (sampleError "timeout")) None)
  = true.
Proof. vm_compute. reflexivity. Qed.

(** C10: when old carries an attach-error or detach-error, new carries none,
    and the two differ otherwise in the resource version only, the filter
    answers do-not-enqueue: clearing the error status is suppressed like
    setting it. *)
Theorem shouldEnqueueVAChange_error_cleared :
  forall old new : storage.VolumeAttachment,
    carriesErrorStatus old ->
    ¬ carriesErrorStatus new ->
    vaResourceVersion old ≠ vaResourceVersion new ->
    identicalExceptVersionAndErrors old new ->
    shouldEnqueueVAChange old new = false.
Proof.
  intros old new Hold _ Hrv Hid.
  apply shouldEnqueueVAChange_status_only; auto.
Qed.

Lemma shouldEnqueueVAChange_error_cleared_witness :
  shouldEnqueueVAChange
    (sampleVA "va-1" "41" (Some "pv-1") None (Some (sampleError "busy")))
    (sampleVA "va-1" "42" (Some "pv-1") None None)
  = false.
Proof.
  apply shouldEnqueueVAChange_error_cleared.
  - right. discriminate.
  - intros [H|H]; apply H; reflexivity.
  - discriminate.
  - repeat split.
Defined.

(** ** Notifications *)

(** Adds and updates are handed to the queue of their kind under the name of
    the (new) object, unless the change filter drops an attachment
    update. *)
Lemma vaAdded_enqueues env hist ctrl va :
  run env hist (vaAdded ctrl (ObjVolumeAttachment (Some va)))
  = ([QueueAdd vaQueue (ItemString (vaName va))], Returned tt).
Proof. reflexivity. Qed.

Lemma vaUpdated_enqueues env hist ctrl old new :
  run env hist
    (vaUpdated ctrl (ObjVolumeAttachment (Some old))
       (ObjVolumeAttachment (Some new)))
  = (if shouldEnqueueVAChange old new
     then [QueueAdd vaQueue (ItemString (vaName new))] else [],
     Returned tt).
Proof.
  unfold vaUpdated; simpl. destruct (shouldEnqueueVAChange old new); reflexivity.
Qed.

Lemma pvAdded_enqueues env hist ctrl pv :
  run env hist (pvAdded ctrl (ObjPersistentVolume (Some pv)))
  = ([QueueAdd pvQueue (ItemString (pvName pv))], Returned tt).
Proof. reflexivity. Qed.

Lemma pvUpdated_enqueues env hist ctrl old pv :
  run env hist (pvUpdated ctrl old (ObjPersistentVolume (Some pv)))
  = ([QueueAdd pvQueue (ItemString (pvName pv))], Returned tt).
Proof. reflexivity. Qed.

(** A payload that is not a VolumeAttachment pointer makes the delete
    callback panic at its type assertion. *)
Lemma vaDeleted_other_payload env hist ctrl :
  run env hist (vaDeleted ctrl ObjOther) = ([], Panicked).
Proof. reflexivity. Qed.

(** C3, as stated, fails: the delete notification of an attachment that
    carries no target reference makes no call at all, so no key is
    enqueued. *)
Lemma vaDeleted_without_target_enqueues_nothing :
  run (constEnv (ItemOther 0, true) (inr (ErrOther "")) (inr (ErrOther ""))
         HandlerReturns true) []
    (cache.OnDelete (vaInformerHandlers (NewCSIAttachController "csi-driver"))
       (ObjVolumeAttachment (Some (sampleVA "va-1" "41" None None None))))
  = ([], Returned tt)
  ∧ ¬ (forall (env : Env) (va : storage.VolumeAttachment),
          exists key : Item,
            In (QueueAdd pvQueue key)
              (trace env []
                 (cache.OnDelete
                    (vaInformerHandlers (NewCSIAttachController "csi-driver"))
                    (ObjVolumeAttachment (Some va))))).
Proof.
  split; [reflexivity|].
  intros H.
  destruct (H (constEnv (ItemOther 0, true) (inr (ErrOther ""))
                 (inr (ErrOther "")) HandlerReturns true)
              (sampleVA "va-1" "41" None None None)) as [key Hin].
  exact Hin.
Qed.

(** C3, amended: the delete notification of an attachment record makes
    exactly one call, the [Add] of the referenced target's name on the PV
    queue, when the record carries a target reference, and no call at all
    when it carries none or when the pointer is nil; in no case is anything
    added to the attachment queue. *)
Theorem vaDeleted_enqueues_referenced_target :
  forall (env : Env) (hist : list Call) (attacher : string)
         (p : option storage.VolumeAttachment),
    run env hist
      (cache.OnDelete (vaInformerHandlers (NewCSIAttachController attacher))
         (ObjVolumeAttachment p))
    = (match p with
       | Some va =>
           match storage.PersistentVolumeName
                   (storage.Source (storage.Spec va)) with
           | Some target => [QueueAdd pvQueue (ItemString target)]
           | None => []
           end
       | None => []
       end, Returned tt).
Proof.
  intros env hist attacher [va|]; [|reflexivity].
  unfold cache.OnDelete; simpl. unfold vaDeleted; simpl.
  destruct (storage.PersistentVolumeName (storage.Source (storage.Spec va)));
    reflexivity.
Qed.

(** C9: no delete callback is registered with the PersistentVolume informer,
    and a delete notification delivered to the registered handlers makes no
    call: nothing is enqueued and the Handler is not invoked. *)
Theorem pv_delete_ignored :
  forall (env : Env) (hist : list Call) (attacher : string) (obj : Object),
    cache.DeleteFunc (pvInformerHandlers (NewCSIAttachController attacher))
    = None
    ∧ run env hist
        (cache.OnDelete (pvInformerHandlers (NewCSIAttachController attacher))
           obj)
      = ([], Returned tt).
Proof. intros env hist attacher obj. split; reflexivity. Qed.

(** ** Dispatch iterations *)

(** C7: in an iteration of either kind, [Done] is called exactly once, on
    the queue the key was popped from and with that key, whatever the lister
    and the Handler answer and whether the iteration returns or panics; when
    the pop reports shutdown, [Done] is not called. *)
Theorem Done_exactly_once :
  forall (env : Env) (hist : list Call) (ctrl : Provisioner),
    List.filter isQueueDone (trace env hist (syncVA ctrl))
    = (if snd (env hist (QueueGet vaQueue)) then []
       else [QueueDone vaQueue (fst (env hist (QueueGet vaQueue)))])
    ∧ List.filter isQueueDone (trace env hist (syncPV ctrl))
      = (if snd (env hist (QueueGet pvQueue)) then []
         else [QueueDone pvQueue (fst (env hist (QueueGet pvQueue)))]).
Proof.
  intros env hist ctrl. split.
  - unfold trace, syncVA. simpl.
    destruct (env hist (QueueGet vaQueue)) as [key quit]. simpl.
    destruct quit; simpl; [reflexivity|].
    destruct key as [s|n]; simpl; [|reflexivity].
    destruct (env (hist ++ [QueueGet vaQueue])%list (VaListerGet s))
      as [va|err]; simpl.
    + case_bool_decide; simpl; [|reflexivity].
      destruct (env _ (SyncNewOrUpdatedVolumeAttachment va)); reflexivity.
    + destruct (apierrs.IsNotFound err); reflexivity.
  - unfold trace, syncPV. simpl.
    destruct (env hist (QueueGet pvQueue)) as [key quit]. simpl.
    destruct quit; simpl; [reflexivity|].
    destruct key as [s|n]; simpl; [|reflexivity].
    destruct (env (hist ++ [QueueGet pvQueue])%list (PvListerGet s))
      as [pv|err]; simpl.
    + destruct (env _ (SyncNewOrUpdatedPersistentVolume pv)); reflexivity.
    + destruct (apierrs.IsNotFound err); reflexivity.
Qed.

(** The call of [Done] is the last call of an iteration that popped a
    key. *)
Lemma Done_is_last (env : Env) (hist : list Call) (ctrl : Provisioner)
    (key : Item) :
  env hist (QueueGet vaQueue) = (key, false) ->
  last (trace env hist (syncVA ctrl)) = Some (QueueDone vaQueue key).
Proof.
  intros Hget. unfold trace, syncVA. simpl. rewrite Hget. simpl.
  destruct key as [s|n]; simpl; [|reflexivity].
  destruct (env (hist ++ [QueueGet vaQueue])%list (VaListerGet s))
    as [va|err]; simpl.
  - case_bool_decide; simpl; [|reflexivity].
    destruct (env _ (SyncNewOrUpdatedVolumeAttachment va)); reflexivity.
  - destruct (apierrs.IsNotFound err); reflexivity.
Qed.

(** C5: when the lister answers the popped key with an error, an iteration
    of either kind calls nothing but the pop, the lookup and [Done] if the
    error is not-found, and those plus [AddRateLimited] of the key on its own
    queue if it is any other error; the Handler is not invoked and the
    iteration returns. *)
Theorem lookup_error_handling :
  forall (env : Env) (hist : list Call) (ctrl : Provisioner)
         (keyVA keyPV : string) (errVA errPV : Error),
    env hist (QueueGet vaQueue) = (ItemString keyVA, false) ->
    env (hist ++ [QueueGet vaQueue])%list (VaListerGet keyVA) = inr errVA ->
    env hist (QueueGet pvQueue) = (ItemString keyPV, false) ->
    env (hist ++ [QueueGet pvQueue])%list (PvListerGet keyPV) = inr errPV ->
    run env hist (syncVA ctrl)
    = (if apierrs.IsNotFound errVA
       then [QueueGet vaQueue; VaListerGet keyVA;
             QueueDone vaQueue (ItemString keyVA)]
       else [QueueGet vaQueue; VaListerGet keyVA;
             QueueAddRateLimited vaQueue (ItemString keyVA);
             QueueDone vaQueue (ItemString keyVA)],
       Returned tt)
    ∧ run env hist (syncPV ctrl)
      = (if apierrs.IsNotFound errPV
         then [QueueGet pvQueue; PvListerGet keyPV;
               QueueDone pvQueue (ItemString keyPV)]
         else [QueueGet pvQueue; PvListerGet keyPV;
               QueueAddRateLimited pvQueue (ItemString keyPV);
               QueueDone pvQueue (ItemString keyPV)],
         Returned tt).
Proof.
  intros env hist ctrl keyVA keyPV errVA errPV Hva Hlva Hpv Hlpv. split.
  - unfold syncVA. simpl. rewrite Hva. simpl. rewrite Hlva.
    destruct (apierrs.IsNotFound errVA); reflexivity.
  - unfold syncPV. simpl. rewrite Hpv. simpl. rewrite Hlpv.
    destruct (apierrs.IsNotFound errPV); reflexivity.
Qed.

Lemma lookup_error_handling_witness :
  run (constEnv (ItemString "obj-1", false) (inr (ErrNotFound "obj-1"))
         (inr (ErrOther "cache unavailable")) HandlerReturns true) []
      (syncVA (mkProvisioner "csi-driver"))
  = ([QueueGet vaQueue; VaListerGet "obj-1";
      QueueDone vaQueue (ItemString "obj-1")], Returned tt)
  ∧ run (constEnv (ItemString "obj-1", false) (inr (ErrNotFound "obj-1"))
           (inr (ErrOther "cache unavailable")) HandlerReturns true) []
        (syncPV (mkProvisioner "csi-driver"))
    = ([QueueGet pvQueue; PvListerGet "obj-1";
        QueueAddRateLimited pvQueue (ItemString "obj-1");
        QueueDone pvQueue (ItemString "obj-1")], Returned tt).
Proof.
  apply (lookup_error_handling
           (constEnv (ItemString "obj-1", false) (inr (ErrNotFound "obj-1"))
              (inr (ErrOther "cache unavailable")) HandlerReturns true)
           [] (mkProvisioner "csi-driver") "obj-1" "obj-1"
           (ErrNotFound "obj-1") (ErrOther "cache unavailable"));
    reflexivity.
Defined.

(** C6: when the lister finds the attachment record of the popped key, the
    iteration invokes the Handler's attachment sync with that record exactly
    when the record's attacher is the controller's; otherwise it calls
    nothing besides the pop, the lookup and [Done], requeues nothing and
    returns.  The iteration of the target kind has no such guard: it invokes
    the Handler's target sync with every record the lister finds. *)
Theorem attacher_guard :
  forall (env : Env) (hist : list Call) (ctrl : Provisioner)
         (keyVA keyPV : string) (va : storage.VolumeAttachment)
         (pv : v1.PersistentVolume),
    env hist (QueueGet vaQueue) = (ItemString keyVA, false) ->
    env (hist ++ [QueueGet vaQueue])%list (VaListerGet keyVA) = inl va ->
    env hist (QueueGet pvQueue) = (ItemString keyPV, false) ->
    env (hist ++ [QueueGet pvQueue])%list (PvListerGet keyPV) = inl pv ->
    run env hist (syncVA ctrl)
    = (if bool_decide (storage.Attacher (storage.Spec va) = attacherName ctrl)
       then
         ([QueueGet vaQueue; VaListerGet keyVA;
           SyncNewOrUpdatedVolumeAttachment va;
           QueueDone vaQueue (ItemString keyVA)],
          match env (hist ++ [QueueGet vaQueue; VaListerGet keyVA])%list
                  (SyncNewOrUpdatedVolumeAttachment va) with
          | HandlerReturns => Returned tt
          | HandlerPanics => Panicked
          end)
       else
         ([QueueGet vaQueue; VaListerGet keyVA;
           QueueDone vaQueue (ItemString keyVA)], Returned tt))
    ∧ run env hist (syncPV ctrl)
      = ([QueueGet pvQueue; PvListerGet keyPV;
          SyncNewOrUpdatedPersistentVolume pv;
          QueueDone pvQueue (ItemString keyPV)],
         match env (hist ++ [QueueGet pvQueue; PvListerGet keyPV])%list
                 (SyncNewOrUpdatedPersistentVolume pv) with
         | HandlerReturns => Returned tt
         | HandlerPanics => Panicked
         end).
Proof.
  intros env hist ctrl keyVA keyPV va pv Hva Hlva Hpv Hlpv. split.
  - unfold syncVA. simpl. rewrite Hva. simpl. rewrite Hlva.
    case_bool_decide; simpl; [|reflexivity].
    rewrite <- !app_assoc. simpl.
    destruct (env (hist ++ [QueueGet vaQueue; VaListerGet keyVA])%list
                (SyncNewOrUpdatedVolumeAttachment va)); reflexivity.
  - unfold syncPV. simpl. rewrite Hpv. simpl. rewrite Hlpv. simpl.
    rewrite <- !app_assoc. simpl.
    destruct (env (hist ++ [QueueGet pvQueue; PvListerGet keyPV])%list
                (SyncNewOrUpdatedPersistentVolume pv)); reflexivity.
Qed.

(** A record of another attacher is skipped by the attachment iteration,
    while the target iteration hands its record to the Handler. *)
Lemma attacher_guard_witness :
  run (constEnv (ItemString "obj-1", false)
         (inl (sampleVA "obj-1" "41" (Some "pv-1") None None))
         (inl (samplePV "obj-1")) HandlerReturns true) []
      (syncVA (mkProvisioner "other-driver"))
  = ([QueueGet vaQueue; VaListerGet "obj-1";
      QueueDone vaQueue (ItemString "obj-1")], Returned tt)
  ∧ run (constEnv (ItemString "obj-1", false)
           (inl (sampleVA "obj-1" "41" (Some "pv-1") None None))
           (inl (samplePV "obj-1")) HandlerReturns true) []
        (syncPV (mkProvisioner "other-driver"))
    = ([QueueGet pvQueue; PvListerGet "obj-1";
        SyncNewOrUpdatedPersistentVolume (samplePV "obj-1");
        QueueDone pvQueue (ItemString "obj-1")], Returned tt).
Proof.
  apply (attacher_guard
           (constEnv (ItemString "obj-1", false)
              (inl (sampleVA "obj-1" "41" (Some "pv-1") None None))
              (inl (samplePV "obj-1")) HandlerReturns true)
           [] (mkProvisioner "other-driver") "obj-1" "obj-1"
           (sampleVA "obj-1" "41" (Some "pv-1") None None)
           (samplePV "obj-1"));
    reflexivity.
Defined.

(** The same record under its own attacher reaches the Handler. *)
Example attacher_match_dispatches :
  trace (constEnv (ItemString "obj-1", false)
           (inl (sampleVA "obj-1" "41" (Some "pv-1") None None))
           (inl (samplePV "obj-1")) HandlerReturns true) []
        (syncVA (mkProvisioner "csi-driver"))
  = [QueueGet vaQueue; VaListerGet "obj-1";
     SyncNewOrUpdatedVolumeAttachment
       (sampleVA "obj-1" "41" (Some "pv-1") None None);
     QueueDone vaQueue (ItemString "obj-1")].
Proof. vm_compute. reflexivity. Qed.

(** ** Start-up gate *)

(** C4: when the cache-sync wait answers false, [Run] calls nothing after it
    but the two deferred [ShutDown]s and returns; it starts no goroutine, so
    in the whole run no key is popped and no Handler sync is invoked. *)
Theorem Run_cache_sync_failed :
  forall (env : Env) (hist : list Call) (ctrl : Provisioner) (workers : Z)
         (rounds : nat),
    env hist WaitForCacheSync = false ->
    run env hist (Run ctrl workers)
    = ([WaitForCacheSync; QueueShutDown pvQueue; QueueShutDown vaQueue],
       Returned tt)
    ∧ spawnedWorkers (trace env hist (Run ctrl workers)) = []
    ∧ systemTrace env hist ctrl workers rounds
      = [WaitForCacheSync; QueueShutDown pvQueue; QueueShutDown vaQueue]
    ∧ List.filter (fun c => isDispatch c || isHandlerSync c)
        (systemTrace env hist ctrl workers rounds) = [].
Proof.
  intros env hist ctrl workers rounds Hsync.
  assert (Hrun : run env hist (Run ctrl workers)
                 = ([WaitForCacheSync; QueueShutDown pvQueue;
                     QueueShutDown vaQueue], Returned tt)).
  { unfold Run. simpl. rewrite Hsync. reflexivity. }
  assert (Hsys : systemTrace env hist ctrl workers rounds
                 = [WaitForCacheSync; QueueShutDown pvQueue;
                    QueueShutDown vaQueue]).
  { unfold systemTrace, trace. rewrite Hrun. reflexivity. }
  repeat split.
  - exact Hrun.
  - unfold trace. rewrite Hrun. reflexivity.
  - exact Hsys.
  - rewrite Hsys. reflexivity.
Qed.

Lemma Run_cache_sync_failed_witness :
  run (constEnv (ItemString "obj-1", false)
         (inl (sampleVA "obj-1" "41" (Some "pv-1") None None))
         (inl (samplePV "obj-1")) HandlerReturns false) []
      (Run (mkProvisioner "csi-driver") 10)
  = ([WaitForCacheSync; QueueShutDown pvQueue; QueueShutDown vaQueue],
     Returned tt)
  ∧ systemTrace
      (constEnv (ItemString "obj-1", false)
         (inl (sampleVA "obj-1" "41" (Some "pv-1") None None))
         (inl (samplePV "obj-1")) HandlerReturns false) []
      (mkProvisioner "csi-driver") 10 3
    = [WaitForCacheSync; QueueShutDown pvQueue; QueueShutDown vaQueue].
Proof.
  destruct (Run_cache_sync_failed
              (constEnv (ItemString "obj-1", false)
                 (inl (sampleVA "obj-1" "41" (Some "pv-1") None None))
                 (inl (samplePV "obj-1")) HandlerReturns false)
              [] (mkProvisioner "csi-driver") 10 3 eq_refl)
    as (Hrun & _ & Hsys & _).
  split; [exact Hrun | exact Hsys].
Defined.

(** With synced caches the same collaborators see workers started and keys
    dispatched. *)
Example Run_synced_dispatches :
  systemTrace
    (constEnv (ItemString "obj-1", false)
       (inl (sampleVA "obj-1" "41" (Some "pv-1") None None))
       (inl (samplePV "obj-1")) HandlerReturns true) []
    (mkProvisioner "csi-driver") 1 1
  = [WaitForCacheSync; GoUntil syncVAWorker; GoUntil syncPVWorker; RecvStopCh;
     QueueShutDown pvQueue; QueueShutDown vaQueue;
     QueueGet vaQueue; VaListerGet "obj-1";
     SyncNewOrUpdatedVolumeAttachment
       (sampleVA "obj-1" "41" (Some "pv-1") None None);
     QueueDone vaQueue (ItemString "obj-1");
     QueueGet pvQueue; PvListerGet "obj-1";
     SyncNewOrUpdatedPersistentVolume (samplePV "obj-1");
     QueueDone pvQueue (ItemString "obj-1")].
Proof. vm_compute. reflexivity. Qed.

(** [Run] starts two goroutines per worker once the caches are synced. *)
Lemma startWorkers_spawns env hist n :
  run env hist (startWorkers n)
  = (concat (replicate n [GoUntil syncVAWorker; GoUntil syncPVWorker]),
     Returned tt).
Proof.
  revert hist. induction n as [|n IH]; intros hist; [reflexivity|].
  simpl. rewrite IH. reflexivity.
Qed.

(** ** Exponential backoff of [AddRateLimited] *)

Section Backoff.

Import workqueue.

Lemma applyOp_baseDelay q op :
  baseDelay (rateLimiter (applyOp q op)) = baseDelay (rateLimiter q).
Proof. destruct op; reflexivity. Qed.

Lemma applyOp_maxDelay q op :
  maxDelay (rateLimiter (applyOp q op)) = maxDelay (rateLimiter q).
Proof. destruct op; reflexivity. Qed.

(** The delay [AddRateLimited] gives is read off the counter of its key,
    which it then advances by one. *)
Lemma AddRateLimited_delay q item :
  lastDelay (AddRateLimited q item)
  = Some (item,
          Z.min (baseDelay (rateLimiter q)
                 * 2 ^ Z.of_nat (NumRequeues (rateLimiter q) item))
            (maxDelay (rateLimiter q))).
Proof. unfold lastDelay, AddRateLimited. simpl. apply last_snoc. Qed.

Lemma AddRateLimited_counter q item :
  NumRequeues (rateLimiter (AddRateLimited q item)) item
  = S (NumRequeues (rateLimiter q) item).
Proof.
  unfold AddRateLimited, NumRequeues. simpl.
  rewrite lookup_insert_eq. reflexivity.
Qed.

(** Counters of different keys do not touch each other. *)
Lemma AddRateLimited_other q item item' :
  item' ≠ item ->
  NumRequeues (rateLimiter (AddRateLimited q item')) item
  = NumRequeues (rateLimiter q) item.
Proof.
  intros Hne. unfold AddRateLimited, NumRequeues. simpl.
  rewrite lookup_insert_ne by exact Hne. reflexivity.
Qed.

Lemma QueueForget_other q item item' :
  item' ≠ item ->
  NumRequeues (rateLimiter (QueueForget q item')) item
  = NumRequeues (rateLimiter q) item.
Proof.
  intros Hne. unfold QueueForget, NumRequeues. simpl.
  rewrite lookup_delete_ne by exact Hne. reflexivity.
Qed.

Lemma QueueForget_counter q item :
  NumRequeues (rateLimiter (QueueForget q item)) item = 0%nat.
Proof.
  unfold QueueForget, NumRequeues. simpl.
  rewrite lookup_delete_eq. reflexivity.
Qed.

(** Over a sequence of calls without [Forget item], the counter of [item]
    grows by the number of [AddRateLimited item] in it. *)
Lemma applyOps_counter item ops :
  consecutive item ops ->
  forall q,
    NumRequeues (rateLimiter (applyOps ops q)) item
    = (NumRequeues (rateLimiter q) item + calls item ops)%nat.
Proof.
  unfold applyOps, calls.
  induction 1 as [|op ops Hop _ IH]; intros q; [simpl; lia|].
  cbn [fold_left List.filter]. rewrite IH.
  destruct op as [item'|item']; cbn [applyOp isAddRateLimited isForget] in *.
  - case_bool_decide as Heq; cbn [length].
    + subst item'. rewrite AddRateLimited_counter. lia.
    + rewrite AddRateLimited_other by exact Heq. lia.
  - case_bool_decide as Heq; [discriminate|].
    rewrite QueueForget_other by exact Heq. lia.
Qed.

Lemma applyOps_delays ops :
  forall q,
    baseDelay (rateLimiter (applyOps ops q)) = baseDelay (rateLimiter q)
    ∧ maxDelay (rateLimiter (applyOps ops q)) = maxDelay (rateLimiter q).
Proof.
  unfold applyOps. induction ops as [|op ops IH]; intros q; simpl; [done|].
  destruct (IH (applyOp q op)) as [-> ->].
  rewrite applyOp_baseDelay, applyOp_maxDelay. done.
Qed.

Lemma calls_snoc item ops :
  calls item (ops ++ [OpAddRateLimited item]) = S (calls item ops).
Proof.
  unfold calls. rewrite List.filter_app, length_app. simpl.
  rewrite bool_decide_eq_true_2 by reflexivity. simpl. lia.
Qed.

(** C8: on a queue configured with the default retry intervals of main.go
    (1s and 5m) and with a fresh counter for key K, the N-th
    [AddRateLimited K] of a sequence of calls without [Forget K] is given
    the delay min(1s * 2^(N-1), 5m), whatever calls for other keys are made
    in between; calls for another key leave the counter of K alone, and
    [Forget K] brings it back to zero. *)
Theorem AddRateLimited_backoff :
  forall (q : RateLimitingQueue) (K : string) (ops : list Op) (N : nat),
    baseDelay (rateLimiter q) = main.retryIntervalStart main.defaultFlags ->
    maxDelay (rateLimiter q) = main.retryIntervalMax main.defaultFlags ->
    NumRequeues (rateLimiter q) K = 0%nat ->
    consecutive K ops ->
    calls K (ops ++ [OpAddRateLimited K]) = N ->
    (1 <= N)%nat
    ∧ lastDelay (applyOps (ops ++ [OpAddRateLimited K]) q)
      = Some (K, Z.min (main.Second * 2 ^ (Z.of_nat N - 1)) (5 * main.Minute))
    ∧ NumRequeues
        (rateLimiter (applyOps (ops ++ [OpAddRateLimited K]) q)) K = N
    ∧ (forall K' : string,
          K' ≠ K ->
          NumRequeues (rateLimiter (AddRateLimited q K')) K
          = NumRequeues (rateLimiter q) K
          ∧ NumRequeues (rateLimiter (QueueForget q K')) K
            = NumRequeues (rateLimiter q) K)
    ∧ NumRequeues
        (rateLimiter
           (QueueForget (applyOps (ops ++ [OpAddRateLimited K]) q) K)) K
      = 0%nat.
Proof.
  intros q K ops N Hbase Hmax Hfresh Hcons HN.
  rewrite calls_snoc in HN. subst N.
  pose proof (applyOps_counter K ops Hcons q) as Hcount.
  destruct (applyOps_delays ops q) as [Hb Hm].
  rewrite Hfresh in Hcount. simpl in Hcount.
  assert (Happ : applyOps (ops ++ [OpAddRateLimited K]) q
                 = AddRateLimited (applyOps ops q) K).
  { unfold applyOps. rewrite fold_left_app. reflexivity. }
  rewrite Happ.
  split; [lia|]. split.
  - rewrite AddRateLimited_delay, Hcount, Hb, Hm, Hbase, Hmax.
    replace (Z.of_nat (S (calls K ops)) - 1) with (Z.of_nat (calls K ops))
      by lia.
    reflexivity.
  - split; [rewrite AddRateLimited_counter, Hcount; reflexivity|].
    split; [|apply QueueForget_counter].
    intros K' Hne.
    split; [apply AddRateLimited_other | apply QueueForget_other]; exact Hne.
Qed.

(** The third retry of "va-1" on the queue main.go builds, with a retry of
    another key in between, waits 4s. *)
Lemma AddRateLimited_backoff_witness :
  lastDelay
    (applyOps
       ([OpAddRateLimited "va-1"; OpAddRateLimited "va-2";
         OpAddRateLimited "va-1"] ++ [OpAddRateLimited "va-1"])
       (main.storageQ main.defaultFlags))
  = Some ("va-1", 4000000000).
Proof.
  destruct (AddRateLimited_backoff (main.storageQ main.defaultFlags) "va-1"
              [OpAddRateLimited "va-1"; OpAddRateLimited "va-2";
               OpAddRateLimited "va-1"] 3
              eq_refl eq_refl eq_refl) as (_ & Hdelay & _).
  - repeat constructor.
  - reflexivity.
  - exact Hdelay.
Defined.

End Backoff.

(** The cap is reached at the tenth consecutive retry: 256s for the ninth,
    5m from then on. *)
Example backoff_reaches_cap :
  map snd
    (workqueue.waiting
       (workqueue.applyOps (replicate 11 (workqueue.OpAddRateLimited "va-1"))
          (main.storageQ main.defaultFlags)))
  = [1000000000; 2000000000; 4000000000; 8000000000; 16000000000;
     32000000000; 64000000000; 128000000000; 256000000000; 300000000000;
     300000000000].
Proof. vm_compute. reflexivity. Qed.

(** * Further properties of the controller *)

(** ** What the change filter drops *)

Lemma sanitizedCopy_identical_iff old new :
  sanitizedCopy old new = old <-> identicalExceptVersionAndErrors old new.
Proof.
  split; [|apply sanitizedCopy_of_identical].
  destruct old as [[] ? []], new as [[] ? []].
  unfold identicalExceptVersionAndErrors, sanitizedCopy, vaResourceVersion,
    vaAttachError, vaDetachError; simpl.
  intros [= -> -> -> -> -> -> -> -> -> -> -> ->]. repeat split.
Qed.

Lemma identicalExceptVersionAndErrors_sym old new :
  identicalExceptVersionAndErrors old new ->
  identicalExceptVersionAndErrors new old.
Proof.
  unfold identicalExceptVersionAndErrors.
  intros (? & ? & ? & ? & ? & ? & ? & ? & ? & ? & ? & ?).
  repeat split; symmetry; assumption.
Qed.

Lemma shouldEnqueueVAChange_false_inv old new :
  shouldEnqueueVAChange old new = false ->
  vaResourceVersion old ≠ vaResourceVersion new
  ∧ (carriesErrorStatus old ∨ carriesErrorStatus new)
  ∧ identicalExceptVersionAndErrors old new.
Proof.
  unfold shouldEnqueueVAChange. rewrite sanitized_is_sanitizedCopy.
  case_bool_decide as Hrv; [discriminate|].
  destruct (isNil (vaAttachError new) && isNil (vaDetachError new)
            && isNil (vaAttachError old) && isNil (vaDetachError old))
    eqn:Hnil; [discriminate|].
  destruct (equality.DeepEqual old (sanitizedCopy old new)) eqn:Heq;
    [|discriminate].
  intros _. split; [exact Hrv|]. split.
  - destruct (decide (carriesErrorStatus old)) as [|Hno]; [tauto|].
    destruct (decide (carriesErrorStatus new)) as [|Hnn]; [tauto|].
    exfalso. assert (H := proj2 (no_error_status_iff old new) (conj Hno Hnn)).
    congruence.
  - apply sanitizedCopy_identical_iff. symmetry.
    apply DeepEqual_spec. exact Heq.
Qed.

(** X1: the filter drops an update exactly when the resource versions differ,
    at least one of the two records carries an attach-error or detach-error,
    and the records agree on every field other than the resource version and
    the two error fields; every other update is enqueued. *)
Theorem shouldEnqueueVAChange_dropped_iff :
  forall old new : storage.VolumeAttachment,
    shouldEnqueueVAChange old new = false
    <-> vaResourceVersion old ≠ vaResourceVersion new
        ∧ (carriesErrorStatus old ∨ carriesErrorStatus new)
        ∧ identicalExceptVersionAndErrors old new.
Proof.
  intros old new. split.
  - apply shouldEnqueueVAChange_false_inv.
  - intros (Hrv & Herr & Hid).
    apply shouldEnqueueVAChange_status_only; assumption.
Qed.

(** X2: the filter does not tell old from new: swapping the two records
    gives the same verdict. *)
Theorem shouldEnqueueVAChange_symmetric :
  forall old new : storage.VolumeAttachment,
    shouldEnqueueVAChange old new = shouldEnqueueVAChange new old.
Proof.
  assert (Hdrop : forall a b,
             shouldEnqueueVAChange a b = false ->
             shouldEnqueueVAChange b a = false).
  { intros a b H.
    destruct (shouldEnqueueVAChange_false_inv a b H) as (Hrv & Herr & Hid).
    apply shouldEnqueueVAChange_status_only.
    - congruence.
    - tauto.
    - apply identicalExceptVersionAndErrors_sym. exact Hid. }
  intros old new.
  destruct (shouldEnqueueVAChange old new) eqn:Hon,
    (shouldEnqueueVAChange new old) eqn:Hno; try reflexivity.
  - apply Hdrop in Hno. congruence.
  - apply Hdrop in Hon. congruence.
Qed.

(** X3: an update notification carrying two attachment records makes no call
    exactly when the filter's three conditions hold (versions differ, an
    error is carried, all other fields agree); in every other case its only
    call is the [Add] of the new record's name on the attachment queue.  It
    returns in both cases. *)
Theorem vaUpdated_enqueue_iff :
  forall (env : Env) (hist : list Call) (ctrl : Provisioner)
         (old new : storage.VolumeAttachment),
    (trace env hist
       (vaUpdated ctrl (ObjVolumeAttachment (Some old))
          (ObjVolumeAttachment (Some new))) = []
     <-> vaResourceVersion old ≠ vaResourceVersion new
         ∧ (carriesErrorStatus old ∨ carriesErrorStatus new)
         ∧ identicalExceptVersionAndErrors old new)
    ∧ (trace env hist
         (vaUpdated ctrl (ObjVolumeAttachment (Some old))
            (ObjVolumeAttachment (Some new))) = []
       ∨ trace env hist
           (vaUpdated ctrl (ObjVolumeAttachment (Some old))
              (ObjVolumeAttachment (Some new)))
         = [QueueAdd vaQueue (ItemString (vaName new))])
    ∧ outcome env hist
        (vaUpdated ctrl (ObjVolumeAttachment (Some old))
           (ObjVolumeAttachment (Some new))) = Returned tt.
Proof.
  intros env hist ctrl old new.
  unfold trace, outcome. rewrite vaUpdated_enqueues. simpl.
  destruct (shouldEnqueueVAChange old new) eqn:Hf.
  - split; [|split; [right|]; reflexivity].
    split; [discriminate|].
    intros H. exfalso.
    assert (Hdrop : shouldEnqueueVAChange old new = false)
      by (apply shouldEnqueueVAChange_status_only; tauto).
    congruence.
  - split; [|split; [left|]; reflexivity].
    split; [intros _; apply shouldEnqueueVAChange_false_inv; exact Hf|].
    reflexivity.
Qed.

(** ** Sequencing and deferred calls *)

Lemma run_bind {A B : Type} (env : Env) (p : Prog A) (f : A -> Prog B) :
  forall hist,
    run env hist (bind p f)
    = match run env hist p with
      | (t, Returned a) =>
          let '(t', o) := run env (hist ++ t)%list (f a) in ((t ++ t')%list, o)
      | (t, Panicked) => (t, Panicked)
      end.
Proof.
  induction p as [a| |c k IH]; intros hist; simpl.
  - rewrite app_nil_r. destruct (run env hist (f a)); reflexivity.
  - reflexivity.
  - rewrite IH.
    destruct (run env (hist ++ [c])%list (k (env hist c))) as [t [a|]];
      [|reflexivity].
    rewrite <- app_assoc. simpl.
    destruct (run env (hist ++ c :: t)%list (f a)); reflexivity.
Qed.

Lemma run_defer {R : Type} (env : Env) (d : Prog unit) (p : Prog R) :
  forall hist,
    run env hist (defer d p)
    = let '(t, o) := run env hist p in
      let '(td, od) := run env (hist ++ t)%list d in
      ((t ++ td)%list, match od with Returned _ => o | Panicked => Panicked end).
Proof.
  induction p as [r| |c k IH]; intros hist; simpl.
  - unfold mbind, Prog_bind. rewrite run_bind, app_nil_r.
    destruct (run env hist d) as [td [[]|]]; simpl;
      rewrite ?app_nil_r; reflexivity.
  - unfold mbind, Prog_bind. rewrite run_bind, app_nil_r.
    destruct (run env hist d) as [td [[]|]]; simpl;
      rewrite ?app_nil_r; reflexivity.
  - rewrite IH.
    destruct (run env (hist ++ [c])%list (k (env hist c))) as [t o].
    rewrite <- app_assoc. simpl.
    destruct (run env (hist ++ c :: t)%list d) as [td od]. reflexivity.
Qed.

(** ** [Run] *)

(** Every run of [Run], whatever the collaborators answer. *)
Lemma run_Run (env : Env) (hist : list Call) (ctrl : Provisioner)
    (workers : Z) :
  run env hist (Run ctrl workers)
  = ((WaitForCacheSync
      :: (if env hist WaitForCacheSync
          then concat (replicate (Z.to_nat workers)
                         [GoUntil syncVAWorker; GoUntil syncPVWorker])
               ++ [RecvStopCh]
          else [])
      ++ [QueueShutDown pvQueue; QueueShutDown vaQueue])%list,
     Returned tt).
Proof.
  unfold Run. rewrite !run_defer. simpl.
  destruct (env hist WaitForCacheSync); simpl; [|reflexivity].
  unfold mbind, Prog_bind. rewrite run_bind, startWorkers_spawns. simpl.
  rewrite <- !app_assoc. reflexivity.
Qed.

Lemma spawnedWorkers_app (t1 t2 : list Call) :
  spawnedWorkers (t1 ++ t2) = (spawnedWorkers t1 ++ spawnedWorkers t2)%list.
Proof.
  induction t1 as [|c t1 IH]; [reflexivity|].
  destruct c; simpl; rewrite IH; reflexivity.
Qed.

Lemma spawnedWorkers_started (n : nat) :
  spawnedWorkers
    (concat (replicate n [GoUntil syncVAWorker; GoUntil syncPVWorker]))
  = concat (replicate n [syncVAWorker; syncPVWorker]).
Proof. induction n as [|n IH]; [reflexivity|]. simpl. rewrite IH. reflexivity. Qed.

Lemma started_no_ShutDown (n : nat) :
  List.filter isShutDown
    (concat (replicate n [GoUntil syncVAWorker; GoUntil syncPVWorker])) = [].
Proof. induction n as [|n IH]; [reflexivity|]. simpl. exact IH. Qed.

Lemma length_started {A : Type} (n : nat) (a b : A) :
  length (concat (replicate n [a; b])) = (2 * n)%nat.
Proof. induction n as [|n IH]; [reflexivity|]. simpl. rewrite IH. lia. Qed.

(** X4: once the caches are synced, [Run] starts one attachment goroutine
    and one target goroutine per worker, in that order, then waits on the
    stop channel, and only then shuts both queues down; a worker count of
    zero or less starts none. *)
Theorem Run_synced_starts_workers :
  forall (env : Env) (hist : list Call) (ctrl : Provisioner) (workers : Z),
    env hist WaitForCacheSync = true ->
    run env hist (Run ctrl workers)
    = ((WaitForCacheSync
        :: concat (replicate (Z.to_nat workers)
                     [GoUntil syncVAWorker; GoUntil syncPVWorker])
        ++ [RecvStopCh; QueueShutDown pvQueue; QueueShutDown vaQueue])%list,
       Returned tt)
    ∧ spawnedWorkers (trace env hist (Run ctrl workers))
      = concat (replicate (Z.to_nat workers) [syncVAWorker; syncPVWorker])
    ∧ Z.of_nat (length (spawnedWorkers (trace env hist (Run ctrl workers))))
      = 2 * Z.max 0 workers.
Proof.
  intros env hist ctrl workers Hsync.
  assert (Hspawn : spawnedWorkers (trace env hist (Run ctrl workers))
                   = concat (replicate (Z.to_nat workers)
                               [syncVAWorker; syncPVWorker])).
  { unfold trace. rewrite run_Run, Hsync. simpl.
    rewrite !spawnedWorkers_app, spawnedWorkers_started. simpl.
    rewrite !app_nil_r. reflexivity. }
  split; [|split].
  - rewrite run_Run, Hsync. rewrite <- app_assoc. reflexivity.
  - exact Hspawn.
  - rewrite Hspawn, length_started. lia.
Qed.

Lemma Run_synced_starts_workers_witness :
  spawnedWorkers
    (trace (constEnv (ItemOther 0, true) (inr (ErrOther ""))
              (inr (ErrOther "")) HandlerReturns true) []
       (Run (mkProvisioner "csi-driver") 2))
  = [syncVAWorker; syncPVWorker; syncVAWorker; syncPVWorker].
Proof.
  destruct (Run_synced_starts_workers
              (constEnv (ItemOther 0, true) (inr (ErrOther ""))
                 (inr (ErrOther "")) HandlerReturns true)
              [] (mkProvisioner "csi-driver") 2 eq_refl)
    as (_ & Hspawn & _).
  exact Hspawn.
Defined.

(** X5: whatever the collaborators answer, [Run] returns, and its last two
    calls are the shutdown of the target queue and then of the attachment
    queue; it shuts no queue down before that. *)
Theorem Run_always_shuts_down :
  forall (env : Env) (hist : list Call) (ctrl : Provisioner) (workers : Z),
    outcome env hist (Run ctrl workers) = Returned tt
    ∧ List.filter isShutDown (trace env hist (Run ctrl workers))
      = [QueueShutDown pvQueue; QueueShutDown vaQueue]
    ∧ exists t : list Call,
        trace env hist (Run ctrl workers)
        = (t ++ [QueueShutDown pvQueue; QueueShutDown vaQueue])%list.
Proof.
  intros env hist ctrl workers. unfold outcome, trace. rewrite run_Run.
  simpl. split; [reflexivity|]. split.
  - rewrite List.filter_app.
    destruct (env hist WaitForCacheSync); [|reflexivity].
    rewrite List.filter_app, started_no_ShutDown. reflexivity.
  - eexists (WaitForCacheSync :: _). reflexivity.
Qed.

(** ** Notification callbacks on any payload *)

(** X6: whatever payload it is given, a notification callback makes no call
    other than one [Add] of a name, on the attachment queue for attachment
    adds and updates and on the target queue for attachment deletes and
    target adds and updates; it makes that call only if it returns, so a
    panicking callback has enqueued nothing. *)
Theorem callbacks_only_add :
  forall (env : Env) (hist : list Call) (ctrl : Provisioner)
         (obj old new : Object),
    (forallb (isAddOn vaQueue) (trace env hist (vaAdded ctrl obj)) = true
     ∧ (length (trace env hist (vaAdded ctrl obj))
        <= if returned (outcome env hist (vaAdded ctrl obj)) then 1 else 0)%nat)
    ∧ (forallb (isAddOn vaQueue) (trace env hist (vaUpdated ctrl old new)) = true
       ∧ (length (trace env hist (vaUpdated ctrl old new))
          <= if returned (outcome env hist (vaUpdated ctrl old new))
             then 1 else 0)%nat)
    ∧ (forallb (isAddOn pvQueue) (trace env hist (vaDeleted ctrl obj)) = true
       ∧ (length (trace env hist (vaDeleted ctrl obj))
          <= if returned (outcome env hist (vaDeleted ctrl obj))
             then 1 else 0)%nat)
    ∧ (forallb (isAddOn pvQueue) (trace env hist (pvAdded ctrl obj)) = true
       ∧ (length (trace env hist (pvAdded ctrl obj))
          <= if returned (outcome env hist (pvAdded ctrl obj)) then 1 else 0)%nat)
    ∧ (forallb (isAddOn pvQueue) (trace env hist (pvUpdated ctrl old new)) = true
       ∧ (length (trace env hist (pvUpdated ctrl old new))
          <= if returned (outcome env hist (pvUpdated ctrl old new))
             then 1 else 0)%nat).
Proof.
  intros env hist ctrl obj old new. unfold trace, outcome.
  split; [|split; [|split; [|split]]].
  - destruct obj as [[va|]|[pv|]|]; simpl; split; (reflexivity || lia).
  - destruct old as [[o|]|[o|]|], new as [[n|]|[n|]|]; simpl;
      try (split; (reflexivity || lia)).
    unfold vaUpdated; simpl.
    destruct (shouldEnqueueVAChange o n); simpl; split; (reflexivity || lia).
  - destruct obj as [[va|]|[pv|]|]; simpl; try (split; (reflexivity || lia)).
    unfold vaDeleted; simpl.
    destruct (storage.PersistentVolumeName (storage.Source (storage.Spec va)));
      simpl; split; (reflexivity || lia).
  - destruct obj as [[va|]|[pv|]|]; simpl; split; (reflexivity || lia).
  - destruct new as [[n|]|[n|]|]; simpl; split; (reflexivity || lia).
Qed.

(** X7: which payloads a callback survives.  The add and update callbacks
    return exactly on non-nil pointers of their own kind (both payloads for
    an attachment update, the new one alone for a target update, whose old
    payload is never looked at) and panic on anything else; the attachment
    delete callback also returns on a nil attachment pointer, and panics on
    every payload of another type. *)
Theorem callbacks_return_iff :
  forall (env : Env) (hist : list Call) (ctrl : Provisioner)
         (obj old new : Object),
    returned (outcome env hist (vaAdded ctrl obj)) = isAttachment obj
    ∧ returned (outcome env hist (vaUpdated ctrl old new))
      = isAttachment old && isAttachment new
    ∧ returned (outcome env hist (vaDeleted ctrl obj)) = isAttachmentPointer obj
    ∧ returned (outcome env hist (pvAdded ctrl obj)) = isVolume obj
    ∧ returned (outcome env hist (pvUpdated ctrl old new)) = isVolume new.
Proof.
  intros env hist ctrl obj old new. unfold outcome.
  split; [|split; [|split; [|split]]].
  - destruct obj as [[va|]|[pv|]|]; reflexivity.
  - destruct old as [[o|]|[o|]|], new as [[n|]|[n|]|]; try reflexivity.
    rewrite vaUpdated_enqueues. reflexivity.
  - destruct obj as [[va|]|[pv|]|]; try reflexivity.
    unfold vaDeleted; simpl.
    destruct (storage.PersistentVolumeName (storage.Source (storage.Spec va)));
      reflexivity.
  - destruct obj as [[va|]|[pv|]|]; reflexivity.
  - destruct new as [[n|]|[n|]|]; reflexivity.
Qed.

(** ** Dispatch iterations under any collaborators *)

(** X8: a popped item that is not a string makes the iteration panic at the
    type assertion; the deferred [Done] is still called with that item, and
    neither the lister nor the Handler is called. *)
Theorem dispatch_non_string_key :
  forall (env : Env) (hist : list Call) (ctrl : Provisioner) (tagVA tagPV : nat),
    env hist (QueueGet vaQueue) = (ItemOther tagVA, false) ->
    env hist (QueueGet pvQueue) = (ItemOther tagPV, false) ->
    run env hist (syncVA ctrl)
    = ([QueueGet vaQueue; QueueDone vaQueue (ItemOther tagVA)], Panicked)
    ∧ run env hist (syncPV ctrl)
      = ([QueueGet pvQueue; QueueDone pvQueue (ItemOther tagPV)], Panicked).
Proof.
  intros env hist ctrl tagVA tagPV Hva Hpv. split.
  - unfold syncVA. simpl. rewrite Hva. reflexivity.
  - unfold syncPV. simpl. rewrite Hpv. reflexivity.
Qed.

Lemma dispatch_non_string_key_witness :
  run (constEnv (ItemOther 7, false) (inr (ErrOther "")) (inr (ErrOther ""))
         HandlerReturns true) [] (syncVA (mkProvisioner "csi-driver"))
  = ([QueueGet vaQueue; QueueDone vaQueue (ItemOther 7)], Panicked)
  ∧ run (constEnv (ItemOther 7, false) (inr (ErrOther "")) (inr (ErrOther ""))
           HandlerReturns true) [] (syncPV (mkProvisioner "csi-driver"))
    = ([QueueGet pvQueue; QueueDone pvQueue (ItemOther 7)], Panicked).
Proof.
  apply (dispatch_non_string_key
           (constEnv (ItemOther 7, false) (inr (ErrOther ""))
              (inr (ErrOther "")) HandlerReturns true)
           [] (mkProvisioner "csi-driver") 7%nat 7%nat); reflexivity.
Defined.

(** X9: an iteration stays on its own side: the attachment iteration calls
    only [Get], [AddRateLimited] and [Done] of the attachment queue, the
    attachment lister and the Handler's attachment sync, and the target
    iteration only their target counterparts; neither ever calls [Add] or
    [ShutDown], waits, or starts a goroutine. *)
Theorem dispatch_stays_on_its_queue :
  forall (env : Env) (hist : list Call) (ctrl : Provisioner),
    forallb (dispatchCallOf vaQueue) (trace env hist (syncVA ctrl)) = true
    ∧ forallb (dispatchCallOf pvQueue) (trace env hist (syncPV ctrl)) = true.
Proof.
  intros env hist ctrl. split.
  - unfold trace, syncVA. simpl.
    destruct (env hist (QueueGet vaQueue)) as [key quit]. simpl.
    destruct quit; simpl; [reflexivity|].
    destruct key as [s|n]; simpl; [|reflexivity].
    destruct (env (hist ++ [QueueGet vaQueue])%list (VaListerGet s))
      as [va|err]; simpl.
    + case_bool_decide; simpl; [|reflexivity].
      destruct (env _ (SyncNewOrUpdatedVolumeAttachment va)); reflexivity.
    + destruct (apierrs.IsNotFound err); reflexivity.
  - unfold trace, syncPV. simpl.
    destruct (env hist (QueueGet pvQueue)) as [key quit]. simpl.
    destruct quit; simpl; [reflexivity|].
    destruct key as [s|n]; simpl; [|reflexivity].
    destruct (env (hist ++ [QueueGet pvQueue])%list (PvListerGet s))
      as [pv|err]; simpl.
    + destruct (env _ (SyncNewOrUpdatedPersistentVolume pv)); reflexivity.
    + destruct (apierrs.IsNotFound err); reflexivity.
Qed.

(** X10: whatever the collaborators answer, an attachment iteration hands
    the Handler at most one record, and only a record whose attacher is the
    controller's own; the target iteration hands it at most one record. *)
Theorem handler_sees_own_attachments_only :
  forall (env : Env) (hist : list Call) (ctrl : Provisioner),
    (length (handledAttachments (trace env hist (syncVA ctrl))) <= 1)%nat
    ∧ Forall (fun va => storage.Attacher (storage.Spec va) = attacherName ctrl)
        (handledAttachments (trace env hist (syncVA ctrl)))
    ∧ (length (handledVolumes (trace env hist (syncPV ctrl))) <= 1)%nat.
Proof.
  intros env hist ctrl. split; [|split].
  - unfold trace, syncVA. simpl.
    destruct (env hist (QueueGet vaQueue)) as [key quit]. simpl.
    destruct quit; simpl; [lia|].
    destruct key as [s|n]; simpl; [|lia].
    destruct (env (hist ++ [QueueGet vaQueue])%list (VaListerGet s))
      as [va|err]; simpl.
    + case_bool_decide; simpl; [|lia].
      destruct (env _ (SyncNewOrUpdatedVolumeAttachment va)); simpl; lia.
    + destruct (apierrs.IsNotFound err); simpl; lia.
  - unfold trace, syncVA. simpl.
    destruct (env hist (QueueGet vaQueue)) as [key quit]. simpl.
    destruct quit; simpl; [constructor|].
    destruct key as [s|n]; simpl; [|constructor].
    destruct (env (hist ++ [QueueGet vaQueue])%list (VaListerGet s))
      as [va|err]; simpl.
    + case_bool_decide as Hown; simpl; [|constructor].
      destruct (env _ (SyncNewOrUpdatedVolumeAttachment va)); simpl;
        repeat constructor; exact Hown.
    + destruct (apierrs.IsNotFound err); simpl; constructor.
  - unfold trace, syncPV. simpl.
    destruct (env hist (QueueGet pvQueue)) as [key quit]. simpl.
    destruct quit; simpl; [lia|].
    destruct key as [s|n]; simpl; [|lia].
    destruct (env (hist ++ [QueueGet pvQueue])%list (PvListerGet s))
      as [pv|err]; simpl.
    + destruct (env _ (SyncNewOrUpdatedPersistentVolume pv)); simpl; lia.
    + destruct (apierrs.IsNotFound err); simpl; lia.
Qed.

(** ** Rounds of a worker *)

(** One iteration pops once, and calls [Done] once unless the pop reported
    shutdown. *)
Lemma iteration_counts (env : Env) (hist : list Call) (ctrl : Provisioner)
    (w : Worker) :
  length (List.filter isDispatch (trace env hist (workerBody ctrl w))) = 1%nat
  ∧ length (List.filter isQueueDone (trace env hist (workerBody ctrl w)))
    = if snd (env hist (QueueGet (workerQueue w))) then 0%nat else 1%nat.
Proof.
  destruct w; unfold trace, workerBody, workerQueue.
  - unfold syncVA. simpl.
    destruct (env hist (QueueGet vaQueue)) as [key quit]. simpl.
    destruct quit; simpl; [split; reflexivity|].
    destruct key as [s|n]; simpl; [|split; reflexivity].
    destruct (env (hist ++ [QueueGet vaQueue])%list (VaListerGet s))
      as [va|err]; simpl.
    + case_bool_decide; simpl; [|split; reflexivity].
      destruct (env _ (SyncNewOrUpdatedVolumeAttachment va)); split; reflexivity.
    + destruct (apierrs.IsNotFound err); split; reflexivity.
  - unfold syncPV. simpl.
    destruct (env hist (QueueGet pvQueue)) as [key quit]. simpl.
    destruct quit; simpl; [split; reflexivity|].
    destruct key as [s|n]; simpl; [|split; reflexivity].
    destruct (env (hist ++ [QueueGet pvQueue])%list (PvListerGet s))
      as [pv|err]; simpl.
    + destruct (env _ (SyncNewOrUpdatedPersistentVolume pv)); split; reflexivity.
    + destruct (apierrs.IsNotFound err); split; reflexivity.
Qed.

Lemma trace_until_S (env : Env) (hist : list Call) (n : nat) (f : Prog unit) :
  trace env hist (until (S n) f)
  = match outcome env hist f with
    | Returned _ =>
        (trace env hist f
         ++ trace env (hist ++ trace env hist f) (until n f))%list
    | Panicked => trace env hist f
    end.
Proof.
  unfold trace, outcome. simpl. unfold mbind, Prog_bind. rewrite run_bind.
  destruct (run env hist f) as [t [[]|]]; simpl; [|reflexivity].
  destruct (run env (hist ++ t)%list (until n f)); reflexivity.
Qed.

(** X11: over any number of rounds of a worker whose queue never reports
    shutdown, there are as many [Done] calls as pops: every key a goroutine
    takes off its queue is released, also when a round panics and ends the
    loop. *)
Theorem worker_releases_every_key :
  forall (env : Env) (ctrl : Provisioner) (w : Worker) (rounds : nat)
         (hist : list Call),
    (forall h : list Call, snd (env h (QueueGet (workerQueue w))) = false) ->
    length (List.filter isQueueDone
              (trace env hist (until rounds (workerBody ctrl w))))
    = length (List.filter isDispatch
                (trace env hist (until rounds (workerBody ctrl w)))).
Proof.
  intros env ctrl w rounds. induction rounds as [|n IH]; intros hist Hopen.
  - reflexivity.
  - rewrite trace_until_S.
    destruct (iteration_counts env hist ctrl w) as [Hpop Hdone].
    rewrite Hopen in Hdone.
    destruct (outcome env hist (workerBody ctrl w)).
    + rewrite !List.filter_app, !length_app, Hpop, Hdone, IH by exact Hopen.
      reflexivity.
    + rewrite Hpop, Hdone. reflexivity.
Qed.

Lemma worker_releases_every_key_witness :
  length (List.filter isQueueDone
            (trace (constEnv (ItemString "obj-1", false)
                      (inl (sampleVA "obj-1" "41" (Some "pv-1") None None))
                      (inr (ErrOther "cache unavailable")) HandlerReturns true)
               [] (until 3 (workerBody (mkProvisioner "csi-driver")
                              syncVAWorker))))
  = length (List.filter isDispatch
              (trace (constEnv (ItemString "obj-1", false)
                        (inl (sampleVA "obj-1" "41" (Some "pv-1") None None))
                        (inr (ErrOther "cache unavailable")) HandlerReturns true)
                 [] (until 3 (workerBody (mkProvisioner "csi-driver")
                                syncVAWorker)))).
Proof.
  apply worker_releases_every_key. intros h. reflexivity.
Defined.

(** ** Start-up of the command *)

Section Startup.

Import csi_attacher.

Lemma buildConfig_starts_nothing (kubeconfig : string) :
  startsController (buildConfig kubeconfig) = false.
Proof. unfold buildConfig. case_bool_decide; reflexivity. Qed.

(** X12: [main] starts the controller, directly or through the leader
    election, exactly when the version was not asked for, the client
    configuration could be built, the worker count is not zero, both
    clientsets could be created and the controller's [Init] succeeded; and
    it exits with status 1 exactly when the version was not asked for and
    one of these fails. *)
Theorem main_fail_fast :
  forall (cl : CommandLine) (errs : Errors),
    (existsb startsController (fst (main cl errs)) = true
     <-> showVersion cl = false
         ∧ configErr errs = None
         ∧ main.workerThreads (flags cl) ≠ 0
         ∧ clientsetErr errs = None
         ∧ ddpClientsetErr errs = None
         ∧ initErr errs = None)
    ∧ (snd (main cl errs) = OsExit 1
       <-> showVersion cl = false
           ∧ ¬ (configErr errs = None
                ∧ main.workerThreads (flags cl) ≠ 0
                ∧ clientsetErr errs = None
                ∧ ddpClientsetErr errs = None
                ∧ initErr errs = None)).
Proof.
  intros cl errs. unfold main.
  destruct (showVersion cl); simpl.
  { split; split; (discriminate || tauto || (intros [H _]; discriminate)). }
  destruct (configErr errs) as [e|]; simpl.
  { rewrite buildConfig_starts_nothing. simpl.
    split; split; try discriminate; try tauto.
    - intros (_ & H & _). discriminate.
    - intros _. split; [reflexivity|]. intros (H & _). discriminate. }
  destruct (Z.eqb_spec (main.workerThreads (flags cl)) 0) as [Hz|Hnz]; simpl.
  { rewrite buildConfig_starts_nothing. simpl.
    split; split; try discriminate; try tauto. }
  destruct (clientsetErr errs) as [e|]; simpl.
  { rewrite buildConfig_starts_nothing. simpl.
    split; split; try discriminate; try tauto.
    - intros (_ & _ & _ & H & _). discriminate.
    - intros _. split; [reflexivity|]. intros (_ & _ & H & _). discriminate. }
  destruct (ddpClientsetErr errs) as [e|]; simpl.
  { rewrite buildConfig_starts_nothing. simpl.
    split; split; try discriminate; try tauto.
    - intros (_ & _ & _ & _ & H & _). discriminate.
    - intros _. split; [reflexivity|].
      intros (_ & _ & _ & H & _). discriminate. }
  destruct (initErr errs) as [e|]; simpl.
  { rewrite buildConfig_starts_nothing. simpl.
    split; split; try discriminate; try tauto.
    - intros (_ & _ & _ & _ & _ & H). discriminate.
    - intros _. split; [reflexivity|].
      intros (_ & _ & _ & _ & H). discriminate. }
  destruct (main.enableLeaderElection (flags cl)); simpl.
  - destruct (leaderElectionErr errs); simpl;
      rewrite buildConfig_starts_nothing; simpl;
      case_bool_decide; simpl;
      (split; split; try discriminate; try tauto; intros _; reflexivity).
  - rewrite buildConfig_starts_nothing. simpl.
    split; split; try discriminate; try tauto.
Qed.

(** X13: with a worker count of zero (and no request for the version)
    [main] exits with status 1 right after building the client
    configuration, whether or not that succeeded: no clientset, informer
    factory, queue or controller is created. *)
Theorem main_zero_workers_rejected :
  forall (cl : CommandLine) (errs : Errors),
    showVersion cl = false ->
    main.workerThreads (flags cl) = 0 ->
    main cl errs = ([buildConfig (kubeconfig cl)], OsExit 1)
    ∧ existsb buildsSomething (fst (main cl errs)) = false.
Proof.
  intros cl errs Hv Hw. unfold main. rewrite Hv, Hw. simpl.
  assert (Hb : buildsSomething (buildConfig (kubeconfig cl)) = false)
    by (unfold buildConfig; case_bool_decide; reflexivity).
  destruct (configErr errs); simpl; rewrite Hb; split; reflexivity.
Qed.

Lemma main_zero_workers_rejected_witness :
  main (mkCommandLine
          (main.mkFlags (10 * main.Minute) (15 * main.Second) 0 main.Second
             (5 * main.Minute) false) "" false "")
    (mkErrors None None None None None)
  = ([InClusterConfig], OsExit 1).
Proof.
  apply (main_zero_workers_rejected
           (mkCommandLine
              (main.mkFlags (10 * main.Minute) (15 * main.Second) 0 main.Second
                 (5 * main.Minute) false) "" false "")
           (mkErrors None None None None None)); reflexivity.
Defined.

End Startup.

(** ** Order of the calls of an iteration *)

(** X14: an iteration that popped a key begins with the pop and ends with
    the [Done] of that key on the same queue: the lookup, a requeue and the
    Handler's sync all come before the key is released. *)
Theorem Done_comes_last :
  forall (env : Env) (hist : list Call) (ctrl : Provisioner) (w : Worker)
         (key : Item),
    env hist (QueueGet (workerQueue w)) = (key, false) ->
    head (trace env hist (workerBody ctrl w)) = Some (QueueGet (workerQueue w))
    ∧ last (trace env hist (workerBody ctrl w))
      = Some (QueueDone (workerQueue w) key).
Proof.
  intros env hist ctrl w key Hget.
  destruct w; unfold trace, workerBody, workerQueue in *.
  - unfold syncVA. simpl. rewrite Hget. simpl.
    destruct key as [s|n]; simpl; [|split; reflexivity].
    destruct (env (hist ++ [QueueGet vaQueue])%list (VaListerGet s))
      as [va|err]; simpl.
    + case_bool_decide; simpl; [|split; reflexivity].
      destruct (env _ (SyncNewOrUpdatedVolumeAttachment va)); split; reflexivity.
    + destruct (apierrs.IsNotFound err); split; reflexivity.
  - unfold syncPV. simpl. rewrite Hget. simpl.
    destruct key as [s|n]; simpl; [|split; reflexivity].
    destruct (env (hist ++ [QueueGet pvQueue])%list (PvListerGet s))
      as [pv|err]; simpl.
    + destruct (env _ (SyncNewOrUpdatedPersistentVolume pv)); split; reflexivity.
    + destruct (apierrs.IsNotFound err); split; reflexivity.
Qed.

Lemma Done_comes_last_witness :
  head (trace (constEnv (ItemString "obj-1", false)
                 (inl (sampleVA "obj-1" "41" (Some "pv-1") None None))
                 (inl (samplePV "obj-1")) HandlerPanics true) []
          (workerBody (mkProvisioner "csi-driver") syncPVWorker))
  = Some (QueueGet pvQueue)
  ∧ last (trace (constEnv (ItemString "obj-1", false)
                   (inl (sampleVA "obj-1" "41" (Some "pv-1") None None))
                   (inl (samplePV "obj-1")) HandlerPanics true) []
            (workerBody (mkProvisioner "csi-driver") syncPVWorker))
    = Some (QueueDone pvQueue (ItemString "obj-1")).
Proof.
  apply (Done_comes_last
           (constEnv (ItemString "obj-1", false)
              (inl (sampleVA "obj-1" "41" (Some "pv-1") None None))
              (inl (samplePV "obj-1")) HandlerPanics true)
           [] (mkProvisioner "csi-driver") syncPVWorker (ItemString "obj-1")).
  reflexivity.
Defined.
